(** * SSO indicator engines: reactive and proactive pipelines, validator

    A shallow embedding of the computation core of the SSO dashboard
    ([modules/reactive_engine.py], [modules/proactive_engine.py],
    [modules/validator.py], [modules/calculator.py]).

    How the data is modelled:
    - Numbers are IEEE-754 binary64 values (Python's [float], numpy's
      [float64]), carried by Rocq's primitive floats, so every arithmetic
      step rounds as the interpreter does.  Numeric columns are taken as
      [float64]; an integer column is carried by the floats of its
      values, which is exact below 2^53.
    - A table is an ordered list of column names with an ordered list of
      records; a record is an ordered dictionary from field names to
      cells.
    - pandas' own parsing of a text cell as a number is a parameter
      ([parse_number]) of the functions that coerce columns.
    - Text operations ([lower], [strip]) act on the ASCII range, where
      all column and month names of the engines live.
    - An exception is a value: functions that can raise return
      [Py.result]. *)

From Stdlib Require Import Floats ZArith Bool List String Ascii DecimalString.
From Stdlib Require Import Sorted Lia.
Import ListNotations.

Set Warnings "-inexact-float".

(* ================================================================== *)
(** * Python and pandas primitives used by the engines                 *)
(* ================================================================== *)

Module Py.

Open Scope string_scope.

(** ** Text *)

(** [str.lower] on the ASCII range (column and month names of the
    engines are ASCII; bytes above 127 are left as they are). *)
Definition lower_ascii (c : ascii) : ascii :=
  let n := nat_of_ascii c in
  if (65 <=? n)%nat && (n <=? 90)%nat then ascii_of_nat (n + 32) else c.

Fixpoint lower (s : string) : string :=
  match s with
  | EmptyString => EmptyString
  | String c s' => String (lower_ascii c) (lower s')
  end.

(** ASCII white space as [str.isspace] sees it. *)
Definition is_space (c : ascii) : bool :=
  let n := nat_of_ascii c in
  ((9 <=? n)%nat && (n <=? 13)%nat) || ((28 <=? n)%nat && (n <=? 32)%nat).

Fixpoint lstrip (s : string) : string :=
  match s with
  | EmptyString => EmptyString
  | String c s' => if is_space c then lstrip s' else s
  end.

Fixpoint rstrip (s : string) : string :=
  match s with
  | EmptyString => EmptyString
  | String c s' =>
      match rstrip s' with
      | EmptyString => if is_space c then EmptyString else String c EmptyString
      | t => String c t
      end
  end.

Definition strip (s : string) : string := rstrip (lstrip s).

(** [s.replace(' ', '_')] *)
Fixpoint replace_space (s : string) : string :=
  match s with
  | EmptyString => EmptyString
  | String c s' =>
      String (if Ascii.eqb c " " then "_"%char else c) (replace_space s')
  end.

(** [sep.join(l)] *)
Fixpoint join (sep : string) (l : list string) : string :=
  match l with
  | [] => ""
  | [x] => x
  | x :: l' => x ++ sep ++ join sep l'
  end.

(** [x in l] for a list of strings. *)
Definition mem (x : string) (l : list string) : bool :=
  existsb (String.eqb x) l.

(** [l.index(x)], when [x in l]. *)
Fixpoint index (x : string) (l : list string) : option Z :=
  match l with
  | [] => None
  | y :: l' =>
      if String.eqb y x then Some 0%Z
      else option_map Z.succ (index x l')
  end.

(** ** Numbers *)

Open Scope float_scope.

(** [float(n)] for a machine-size integer. *)
Definition float_of_Z (n : Z) : float :=
  if (n <? 0)%Z then - (of_uint63 (Uint63.of_Z (- n)))
  else of_uint63 (Uint63.of_Z n).

Definition float_of_nat (n : nat) : float := float_of_Z (Z.of_nat n).

(** [pd.isna] on a float, [np.isinf]. *)
Definition isna (x : float) : bool := is_nan x.
Definition isinf (x : float) : bool := is_infinity x.

(** Python's [min(a, b)]: [b] only when [b < a]. *)
Definition min (a b : float) : float := if b <? a then b else a.

(** [Series.sum()] with the default [skipna=True]: missing values count
    as zero; the summands are added in the order of the rows. *)
Definition sum (l : list float) : float :=
  fold_left (fun acc x => acc + (if is_nan x then 0 else x)) l 0.

(** [Series.mean()] with the default [skipna=True]. *)
Definition mean (l : list float) : float :=
  let vs := filter (fun x => negb (is_nan x)) l in
  match vs with
  | [] => nan
  | _ => sum vs / float_of_nat (List.length vs)
  end.

(** ** Tables *)

(** A cell of a table: a float64 number, an integer, or text. *)
Inductive cell : Type :=
| CNum (x : float)
| CInt (n : Z)
| CStr (s : string).

(** A record with named fields, in column order ([Series] of one row,
    or the [dict] that [row.to_dict()] gives).  A field that a record
    does not carry is a missing value. *)
Definition row : Type := list (string * cell).

Fixpoint get (r : row) (c : string) : option cell :=
  match r with
  | [] => None
  | (k, v) :: r' => if String.eqb k c then Some v else get r' c
  end.

(** [r[c] = v]: overwrite the field, or add it after the others. *)
Fixpoint set (r : row) (c : string) (v : cell) : row :=
  match r with
  | [] => [(c, v)]
  | (k, w) :: r' =>
      if String.eqb k c then (k, v) :: r' else (k, w) :: set r' c v
  end.

(** The number held by a numeric field. *)
Definition num_of (v : option cell) : float :=
  match v with
  | Some (CNum x) => x
  | Some (CInt n) => float_of_Z n
  | _ => nan
  end.

Definition num (r : row) (c : string) : float := num_of (get r c).

(** [row.get(c, 0)] *)
Definition get_or_0 (r : row) (c : string) : cell :=
  match get r c with Some v => v | None => CInt 0 end.

Record DataFrame : Type := mkDataFrame {
  columns : list string;
  rows : list row
}.

(** [df.empty] *)
Definition empty (df : DataFrame) : bool :=
  match columns df, rows df with
  | [], _ | _, [] => true
  | _, _ => false
  end.

(** [df.columns = [f(col) for col in df.columns]] *)
Definition rename_columns (f : string -> string) (df : DataFrame) : DataFrame :=
  {| columns := map f (columns df);
     rows := map (map (fun kv => (f (fst kv), snd kv))) (rows df) |}.

(** [df[c] = ...], the new value of each row computed from that row. *)
Definition assign (c : string) (f : row -> cell) (df : DataFrame) : DataFrame :=
  {| columns := if mem c (columns df) then columns df else (columns df ++ [c])%list;
     rows := map (fun r => set r c (f r)) (rows df) |}.

(** [df[c]] as a list of numbers. *)
Definition column_num (c : string) (df : DataFrame) : list float :=
  map (fun r => num r c) (rows df).

(** [pd.to_numeric(x, errors='coerce')] on one cell; [parse] is pandas'
    reading of a text cell as a number. *)
Definition to_numeric (parse : string -> option float) (v : option cell) : float :=
  match v with
  | Some (CNum x) => x
  | Some (CInt n) => float_of_Z n
  | Some (CStr s) => match parse s with Some x => x | None => nan end
  | None => nan
  end.

(** [.fillna(0)] *)
Definition fillna0 (x : float) : float := if is_nan x then 0 else x.

(** [.str.lower().str.strip()] on one cell of a text column; a cell
    that is not text becomes a missing value. *)
Definition str_lower_strip (v : option cell) : cell :=
  match v with
  | Some (CStr s) => CStr (strip (lower s))
  | _ => CNum nan
  end.

(** The integer sort key held by column [c]. *)
Definition clave (c : string) (r : row) : Z :=
  match get r c with Some (CInt n) => n | _ => 0%Z end.

(** [df.sort_values(c)]: rows in non-decreasing order of the key.  Rows
    with equal keys stay in their original order: the sort is taken to
    be stable, as an insertion sort is. *)
Fixpoint insert_sorted (c : string) (r : row) (l : list row) : list row :=
  match l with
  | [] => [r]
  | x :: l' =>
      if (clave c r <=? clave c x)%Z then r :: l
      else x :: insert_sorted c r l'
  end.

Fixpoint sort_rows (c : string) (l : list row) : list row :=
  match l with
  | [] => []
  | r :: l' => insert_sorted c r (sort_rows c l')
  end.

Definition sort_values (c : string) (df : DataFrame) : DataFrame :=
  {| columns := columns df; rows := sort_rows c (rows df) |}.

(** [df[mask]] *)
Definition select (p : row -> bool) (df : DataFrame) : DataFrame :=
  {| columns := columns df; rows := filter p (rows df) |}.

(** [s.isin(l)] on one text cell. *)
Definition isin (v : option cell) (l : list string) : bool :=
  match v with Some (CStr s) => mem s l | _ => false end.

(** [pd.DataFrame(records)]: the columns are the field names in order
    of first appearance. *)
Fixpoint union_keys (acc : list string) (l : list row) : list string :=
  match l with
  | [] => acc
  | r :: l' =>
      union_keys
        (fold_left (fun a kv => if mem (fst kv) a then a else (a ++ [fst kv])%list) r acc)
        l'
  end.

Definition from_records (l : list row) : DataFrame :=
  {| columns := union_keys [] l; rows := l |}.

(** [row.get(c, 0)] read as a number. *)
Definition valor (r : row) (c : string) : float := num_of (Some (get_or_0 r c)).


(** A reading of text cells that takes none of them for a number. *)
Definition sin_parser : string -> option float := fun _ => None.

(** ** Exceptions *)

Inductive exn : Type :=
| ValueError (msg : string).

Inductive result (A : Type) : Type :=
| Ok (a : A)
| Raise (e : exn).

Arguments Ok {A} a.
Arguments Raise {A} e.

End Py.

(* ================================================================== *)
(** * Safe division ([_safe_divide], shared by both calculators)       *)
(* ================================================================== *)

Module SafeArithmetic.

Import Py.
Open Scope float_scope.

(** [ReactiveAnalyzer._safe_divide] and [SSOCalculator._safe_divide]
    (the two bodies are the same).  On floats none of the operations
    raises, so the [except] branch is never taken. *)
Definition _safe_divide (numerador denominador : float) : float :=
  if (denominador =? 0) || isna denominador then 0
  else
    let resultado := numerador / denominador in
    if isna resultado || isinf resultado then 0 else resultado.

End SafeArithmetic.

(* ================================================================== *)
(** * Reactive engine ([modules/reactive_engine.py])                   *)
(* ================================================================== *)

Module ReactiveEngine.

Import Py SafeArithmetic.
Open Scope string_scope.
Open Scope float_scope.

Record ConstantesK : Type := {
  MENSUAL : float;
  TRIMESTRAL : float;
  ANUAL : float
}.

Definition K : ConstantesK :=
  {| MENSUAL := 16666.67; TRIMESTRAL := 50000.0; ANUAL := 200000.0 |}.

Definition HORAS_MENSUALES_STD : float := 173.33.

Definition MESES_ORDEN : list string :=
  [ "enero"; "febrero"; "marzo";
    "abril"; "mayo"; "junio";
    "julio"; "agosto"; "septiembre";
    "octubre"; "noviembre"; "diciembre" ].

Record Trimestre : Type := {
  nombre : string;
  meses : list string
}.

Definition TRIMESTRES : list (Z * Trimestre) :=
  [ (1%Z, {| nombre := "PRIMER TRIMESTRE"; meses := ["enero"; "febrero"; "marzo"] |});
    (2%Z, {| nombre := "SEGUNDO TRIMESTRE"; meses := ["abril"; "mayo"; "junio"] |});
    (3%Z, {| nombre := "TERCER TRIMESTRE"; meses := ["julio"; "agosto"; "septiembre"] |});
    (4%Z, {| nombre := "CUARTO TRIMESTRE"; meses := ["octubre"; "noviembre"; "diciembre"] |}) ].

Definition COLUMNAS_REQUERIDAS : list string :=
  [ "mes"; "num_trabajadores"; "horas_hombre_mes";
    "acc_baja"; "acc_sin_baja"; "enf_ocupacionales"; "dias_perdidos" ].

(** The analyzer object: the tables of the last run. *)
Record ReactiveAnalyzer : Type := {
  df_input : option DataFrame;
  df_reporte : option DataFrame;
  df_charts : option DataFrame
}.

Definition init : ReactiveAnalyzer :=
  {| df_input := None; df_reporte := None; df_charts := None |}.

Definition newline : string := String (ascii_of_nat 10) "".

(** [col.lower().strip().replace(' ', '_')] *)
Definition normalizar_nombre (col : string) : string :=
  replace_space (strip (lower col)).

Definition faltantes (df : DataFrame) : list string :=
  filter (fun col => negb (mem col (columns df))) COLUMNAS_REQUERIDAS.

Definition _validar_columnas (df : DataFrame) : result unit :=
  match faltantes df with
  | [] => Ok tt
  | f =>
      Raise (ValueError
        ("Columnas requeridas faltantes: " ++ join ", " f ++ newline ++
         "Columnas encontradas: " ++ join ", " (columns df)))
  end.

Section Coercion.

(** pandas' reading of a text cell as a number. *)
Variable parse_number : string -> option float.

Definition coerce (col : string) (df : DataFrame) : DataFrame :=
  assign col (fun r => CNum (fillna0 (to_numeric parse_number (get r col)))) df.

Definition _preparar_datos_base (df : DataFrame) : DataFrame :=
  let columnas_numericas :=
    [ "num_trabajadores"; "horas_hombre_mes"; "acc_baja";
      "acc_sin_baja"; "enf_ocupacionales"; "dias_perdidos" ] in
  let df :=
    fold_left
      (fun df col => if mem col (columns df) then coerce col df else df)
      columnas_numericas df in
  let df :=
    if mem "horas_extras" (columns df) then coerce "horas_extras" df
    else assign "horas_extras" (fun _ => CNum 0) df in
  let df :=
    assign "total_lesiones"
      (fun r => CNum (num r "acc_baja" + num r "acc_sin_baja"
                      + num r "enf_ocupacionales")) df in
  let df :=
    assign "total_horas"
      (fun r => CNum
         (if 0 <? num r "horas_hombre_mes" then num r "horas_hombre_mes"
          else (num r "num_trabajadores" * HORAS_MENSUALES_STD)
               + num r "horas_extras")) df in
  let df := assign "mes" (fun r => str_lower_strip (get r "mes")) df in
  let df :=
    assign "mes_orden"
      (fun r => CInt
         match get r "mes" with
         | Some (CStr x) =>
             match index x MESES_ORDEN with Some i => i | None => 99%Z end
         | _ => 99%Z
         end) df in
  sort_values "mes_orden" df.

Definition _calcular_indices_meses (df : DataFrame) : DataFrame :=
  let k := MENSUAL K in
  let df :=
    assign "IF"
      (fun r => CNum (_safe_divide (num r "total_lesiones" * k)
                                   (num r "total_horas"))) df in
  let df :=
    assign "IG"
      (fun r => CNum (_safe_divide (num r "dias_perdidos" * k)
                                   (num r "total_horas"))) df in
  let df :=
    assign "TR"
      (fun r => CNum (_safe_divide (num r "dias_perdidos")
                                   (num r "total_lesiones"))) df in
  let df := assign "tipo_fila" (fun _ => CStr "mes") df in
  assign "constante_k" (fun _ => CNum k) df.

Definition _crear_fila_resumen (df_periodo : DataFrame)
    (nombre tipo : string) (constante_k : float) (orden : Z) : row :=
  let total_lesiones := sum (column_num "total_lesiones" df_periodo) in
  let total_horas := sum (column_num "total_horas" df_periodo) in
  let dias_perdidos := sum (column_num "dias_perdidos" df_periodo) in
  let num_trabajadores := mean (column_num "num_trabajadores" df_periodo) in
  let acc_baja := sum (column_num "acc_baja" df_periodo) in
  let acc_sin_baja := sum (column_num "acc_sin_baja" df_periodo) in
  let enf_ocupacionales := sum (column_num "enf_ocupacionales" df_periodo) in
  let IF := _safe_divide (total_lesiones * constante_k) total_horas in
  let IG := _safe_divide (dias_perdidos * constante_k) total_horas in
  let TR := _safe_divide dias_perdidos total_lesiones in
  [ ("mes", CStr nombre);
    ("num_trabajadores", CNum num_trabajadores);
    ("horas_hombre_mes", CNum total_horas);
    ("horas_extras",
       if mem "horas_extras" (columns df_periodo)
       then CNum (sum (column_num "horas_extras" df_periodo))
       else CInt 0);
    ("acc_baja", CNum acc_baja);
    ("acc_sin_baja", CNum acc_sin_baja);
    ("enf_ocupacionales", CNum enf_ocupacionales);
    ("dias_perdidos", CNum dias_perdidos);
    ("total_lesiones", CNum total_lesiones);
    ("total_horas", CNum total_horas);
    ("IF", CNum IF);
    ("IG", CNum IG);
    ("TR", CNum TR);
    ("tipo_fila", CStr tipo);
    ("constante_k", CNum constante_k);
    ("mes_orden", CInt orden) ].

(** One turn of the loop over [TRIMESTRES]: the month rows of the
    quarter, then its summary row when the quarter has any row. *)
Definition filas_trimestre (df_meses : DataFrame) (t : Z * Trimestre) : list row :=
  let '(trimestre_num, config) := t in
  let df_trim := select (fun r => isin (get r "mes") (meses config)) df_meses in
  (rows df_trim ++
   match rows df_trim with
   | [] => []
   | _ => [ _crear_fila_resumen df_trim (nombre config) "trimestre"
              (TRIMESTRAL K) (trimestre_num * 3)%Z ]
   end)%list.

Definition fila_anual (df_meses : DataFrame) : row :=
  _crear_fila_resumen df_meses "TOTAL AÑO" "anual" (ANUAL K) 99%Z.

Definition filas_resultado (df_meses : DataFrame) : list row :=
  (flat_map (filas_trimestre df_meses) TRIMESTRES ++ [fila_anual df_meses])%list.

Definition _insertar_resúmenes (df_meses : DataFrame) : DataFrame :=
  sort_values "mes_orden" (from_records (filas_resultado df_meses)).

Definition es_mes (r : row) : bool :=
  match get r "tipo_fila" with
  | Some (CStr t) => String.eqb t "mes"
  | _ => false
  end.

(** [procesar]: the analyzer after the call, and the two tables or the
    exception raised. *)
Definition procesar (self : ReactiveAnalyzer) (df : DataFrame)
  : ReactiveAnalyzer * result (DataFrame * DataFrame) :=
  let df := rename_columns normalizar_nombre df in
  match _validar_columnas df with
  | Raise e => (self, Raise e)
  | Ok _ =>
      let df_base := _preparar_datos_base df in
      let df_meses := _calcular_indices_meses df_base in
      let df_reporte := _insertar_resúmenes df_meses in
      let df_charts := select es_mes df_reporte in
      ({| df_input := df_input self;
          df_reporte := Some df_reporte;
          df_charts := Some df_charts |},
       Ok (df_reporte, df_charts))
  end.

End Coercion.

(** ** Statistics and column lists *)

(** [df[c].iloc[0]] on a table with a first row. *)
Definition iloc0 (c : string) (df : DataFrame) (por_defecto : cell) : cell :=
  match rows df with
  | r :: _ => match get r c with Some v => v | None => CNum nan end
  | [] => por_defecto
  end.

(** [obtener_estadisticas]: the dictionary of key figures, empty before
    the first run.  [None] stands for the exception that Python raises
    when [df_reporte] is set and [df_charts] is not (no method leaves the
    analyzer so). *)
Definition obtener_estadisticas (self : ReactiveAnalyzer) : option row :=
  match df_reporte self with
  | None => Some []
  | Some reporte =>
      match df_charts self with
      | None => None
      | Some df_meses =>
          let df_anual :=
            select (fun r => match get r "tipo_fila" with
                             | Some (CStr t) => String.eqb t "anual"
                             | _ => false
                             end) reporte in
          Some
            [ ("total_accidentes_baja", CNum (sum (column_num "acc_baja" df_meses)));
              ("total_accidentes_sin_baja", CNum (sum (column_num "acc_sin_baja" df_meses)));
              ("total_enfermedades", CNum (sum (column_num "enf_ocupacionales" df_meses)));
              ("total_lesiones_año", CNum (sum (column_num "total_lesiones" df_meses)));
              ("total_dias_perdidos", CNum (sum (column_num "dias_perdidos" df_meses)));
              ("total_horas_año", CNum (sum (column_num "total_horas" df_meses)));
              ("if_promedio_mensual", CNum (mean (column_num "IF" df_meses)));
              ("ig_promedio_mensual", CNum (mean (column_num "IG" df_meses)));
              ("tr_promedio", CNum (mean (column_num "TR" df_meses)));
              ("if_anual", iloc0 "IF" df_anual (CInt 0));
              ("ig_anual", iloc0 "IG" df_anual (CInt 0));
              ("meses_sin_accidentes",
                 CInt (Z.of_nat (List.length
                         (filter (fun x => x =? 0)
                                 (column_num "total_lesiones" df_meses))))) ]
      end
  end.

Definition obtener_columnas_reporte : list string :=
  [ "mes"; "num_trabajadores"; "total_horas";
    "acc_baja"; "acc_sin_baja"; "enf_ocupacionales";
    "total_lesiones"; "dias_perdidos";
    "IF"; "IG"; "TR"; "constante_k" ].

Definition obtener_nombres_columnas_display : list (string * string) :=
  [ ("mes", "Período");
    ("num_trabajadores", "Trabajadores");
    ("total_horas", "Total Horas");
    ("acc_baja", "Acc. c/Baja");
    ("acc_sin_baja", "Acc. s/Baja");
    ("enf_ocupacionales", "Enf. Ocup.");
    ("total_lesiones", "Total Lesiones");
    ("dias_perdidos", "Días Perdidos");
    ("IF", "Índ. Frecuencia");
    ("IG", "Índ. Gravedad");
    ("TR", "Tasa Riesgo");
    ("constante_k", "Constante K") ].

End ReactiveEngine.

(* ================================================================== *)
(** * Proactive engine ([modules/proactive_engine.py])                 *)
(* ================================================================== *)

Module ProactiveEngine.

Import Py.
Open Scope string_scope.
Open Scope float_scope.

Record IndicadorConfig : Type := {
  codigo : string;
  nombre : string;
  descripcion : string;
  col_numerador : string;
  col_denominador : string;
  peso : Z
}.

Definition META_DEFAULT : float := 80.0.

Definition INDICADORES : list (string * IndicadorConfig) :=
  [ ("IART", {| codigo := "IART";
                nombre := "Análisis de Riesgos de Tarea";
                descripcion := "Cumplimiento de análisis de riesgos programados";
                col_numerador := "nart_ejec";
                col_denominador := "nart_prog";
                peso := 5 |});
    ("OPAS", {| codigo := "OPAS";
                nombre := "Observaciones Planeadas";
                descripcion := "Efectividad del programa de observaciones";
                col_numerador := "opas_efectivo";
                col_denominador := "opas_programado";
                peso := 3 |});
    ("IDPS", {| codigo := "IDPS";
                nombre := "Diálogos de Seguridad";
                descripcion := "Cumplimiento de diálogos periódicos";
                col_numerador := "dps_efectivo";
                col_denominador := "dps_programado";
                peso := 2 |});
    ("IDS", {| codigo := "IDS";
               nombre := "Demanda de Seguridad";
               descripcion := "Resolución de condiciones subestándar";
               col_numerador := "ds_eliminadas";
               col_denominador := "ds_detectadas";
               peso := 3 |});
    ("IENTS", {| codigo := "IENTS";
                 nombre := "Entrenamiento de Seguridad";
                 descripcion := "Cumplimiento de capacitaciones";
                 col_numerador := "ent_entrenados";
                 col_denominador := "ent_programados";
                 peso := 1 |});
    ("IOSEA", {| codigo := "IOSEA";
                 nombre := "Órdenes de Servicio";
                 descripcion := "Cumplimiento de estándares";
                 col_numerador := "osea_cumplidos";
                 col_denominador := "osea_aplicables";
                 peso := 4 |});
    ("ICAI", {| codigo := "ICAI";
                nombre := "Control de Accidentes/Incidentes";
                descripcion := "Implementación de medidas correctivas";
                col_numerador := "cai_implement";
                col_denominador := "cai_propuestas";
                peso := 4 |});
    ("IEF", {| codigo := "IEF";
               nombre := "Índice de Eficacia";
               descripcion := "Eficacia de auditorías internas";
               col_numerador := "ef_auditados";
               col_denominador := "ef_totales";
               peso := 0 |}) ].

Definition COLUMNAS_REQUERIDAS : list string :=
  [ "mes";
    "nart_prog"; "nart_ejec";
    "opas_prog"; "opas_real"; "opas_personas_prev"; "opas_personas_conf";
    "dps_plan"; "dps_real"; "dps_previstos"; "dps_asistentes";
    "ds_detectadas"; "ds_eliminadas";
    "ent_programados"; "ent_entrenados";
    "osea_aplicables"; "osea_cumplidos";
    "cai_propuestas"; "cai_implement";
    "ef_totales"; "ef_auditados" ].

Definition MESES_ORDEN : list string :=
  [ "enero"; "febrero"; "marzo"; "abril"; "mayo"; "junio";
    "julio"; "agosto"; "septiembre"; "octubre"; "noviembre"; "diciembre" ].

(** The calculator object: the target and the table of the last run. *)
Record ProactiveCalculator : Type := {
  meta : float;
  df_resultado : option DataFrame
}.

(** [__init__]: [self.meta = meta or self.META_DEFAULT] *)
Definition init (meta : option float) : ProactiveCalculator :=
  {| meta := match meta with
             | Some m => if m =? 0 then META_DEFAULT else m
             | None => META_DEFAULT
             end;
     df_resultado := None |}.

Definition normalizar_nombre (col : string) : string :=
  replace_space (strip (lower col)).

Definition faltantes (df : DataFrame) : list string :=
  filter (fun col => negb (mem col (columns df))) COLUMNAS_REQUERIDAS.

Definition _validar_columnas (df : DataFrame) : result unit :=
  match faltantes df with
  | [] => Ok tt
  | f => Raise (ValueError ("Columnas requeridas faltantes: " ++ join ", " f))
  end.

(** [_calcular_indicador]; on floats the [except] branch is never taken. *)
Definition _calcular_indicador (numerador denominador : float) : float :=
  if (denominador =? 0) || isna denominador then 0
  else
    let resultado := (numerador / denominador) * 100 in
    if isna resultado || isinf resultado then 0 else min resultado 100.

(** The loop of [_calcular_ig_total]: the weighted sum and the sum of the
    weights; [None] when a weighted field holds text ([TypeError]). *)
Fixpoint sumas_ponderadas (inds : list (string * IndicadorConfig)) (r : row)
    (acc : float * Z) : option (float * Z) :=
  match inds with
  | [] => Some acc
  | (codigo, config) :: inds' =>
      if (0 <? peso config)%Z then
        match get_or_0 r codigo with
        | CStr _ => None
        | v =>
            sumas_ponderadas inds' r
              (fst acc + float_of_Z (peso config) * num_of (Some v),
               (snd acc + peso config)%Z)
        end
      else sumas_ponderadas inds' r acc
  end.

Definition _calcular_ig_total (r : row) : float :=
  match sumas_ponderadas INDICADORES r (0, 0%Z) with
  | Some (suma_ponderada, suma_pesos) =>
      if (suma_pesos =? 0)%Z then 0
      else suma_ponderada / float_of_Z suma_pesos
  | None => 0
  end.

Section Coercion.

Variable parse_number : string -> option float.

Definition coerce (col : string) (df : DataFrame) : DataFrame :=
  assign col (fun r => CNum (fillna0 (to_numeric parse_number (get r col)))) df.

Definition _preparar_datos (df : DataFrame) : DataFrame :=
  let df :=
    fold_left
      (fun df col => if String.eqb col "mes" then df else coerce col df)
      (columns df) df in
  let df := assign "mes" (fun r => str_lower_strip (get r "mes")) df in
  let df :=
    assign "mes_orden"
      (fun r => CInt
         match get r "mes" with
         | Some (CStr x) =>
             match index x MESES_ORDEN with Some i => i | None => 99%Z end
         | _ => 99%Z
         end) df in
  sort_values "mes_orden" df.

Definition _calcular_columnas_compuestas (df : DataFrame) : DataFrame :=
  let df :=
    assign "opas_efectivo"
      (fun r => CNum (num r "opas_real" * num r "opas_personas_conf")) df in
  let df :=
    assign "opas_programado"
      (fun r => CNum (num r "opas_prog" * num r "opas_personas_prev")) df in
  let df :=
    assign "dps_efectivo"
      (fun r => CNum (num r "dps_real" * num r "dps_asistentes")) df in
  assign "dps_programado"
    (fun r => CNum (num r "dps_plan" * num r "dps_previstos")) df.

(** One turn of the loop over [INDICADORES] in [procesar]. *)
Definition calcular_columna (df : DataFrame) (ic : string * IndicadorConfig)
  : DataFrame :=
  let '(codigo, config) := ic in
  assign codigo
    (fun r => CNum (_calcular_indicador
                      (num_of (Some (get_or_0 r (col_numerador config))))
                      (num_of (Some (get_or_0 r (col_denominador config))))))
    df.

Definition procesar (self : ProactiveCalculator) (df : DataFrame)
  : ProactiveCalculator * result DataFrame :=
  let df := rename_columns normalizar_nombre df in
  match _validar_columnas df with
  | Raise e => (self, Raise e)
  | Ok _ =>
      let df := _preparar_datos df in
      let df := _calcular_columnas_compuestas df in
      let df := fold_left calcular_columna INDICADORES df in
      let df := assign "IG_TOTAL" (fun r => CNum (_calcular_ig_total r)) df in
      let df := assign "Meta" (fun _ => CNum (meta self)) df in
      let df :=
        assign "Estado"
          (fun r => CStr (if meta self <=? num r "IG_TOTAL"
                          then "CUMPLE" else "NO CUMPLE")) df in
      ({| meta := meta self; df_resultado := Some df |}, Ok df)
  end.

End Coercion.

(** ** Statistics *)

(** [Series.min()] and [Series.max()] with the default [skipna=True]:
    the least and the greatest of the values that are not missing, a
    missing value when there is none.  Among values that compare equal
    (zeros of either sign) the first one met is kept. *)
Definition serie_min (l : list float) : float :=
  match filter (fun x => negb (is_nan x)) l with
  | [] => nan
  | x :: vs => fold_left (fun m y => if y <? m then y else m) vs x
  end.

Definition serie_max (l : list float) : float :=
  match filter (fun x => negb (is_nan x)) l with
  | [] => nan
  | x :: vs => fold_left (fun m y => if m <? y then y else m) vs x
  end.

(** [(df[c] >= meta).sum()] *)
Definition cuenta_cumple (meta : float) (c : string) (df : DataFrame) : nat :=
  List.length (filter (fun x => meta <=? x) (column_num c df)).

Record EstadisticasIndicador : Type := {
  promedio : float;
  minimo : float;
  maximo : float;
  cumple_meta : nat
}.

Record Estadisticas : Type := {
  stats_meta : float;
  meses_cumplen : nat;
  meses_no_cumplen : nat;
  ig_total_promedio : float;
  indicadores : list (string * EstadisticasIndicador)
}.

(** [obtener_estadisticas]; [None] is the empty dictionary that is
    returned before the first run. *)
Definition obtener_estadisticas (self : ProactiveCalculator) : option Estadisticas :=
  match df_resultado self with
  | None => None
  | Some df =>
      Some
        {| stats_meta := meta self;
           meses_cumplen := cuenta_cumple (meta self) "IG_TOTAL" df;
           meses_no_cumplen :=
             List.length (filter (fun x => x <? meta self) (column_num "IG_TOTAL" df));
           ig_total_promedio := mean (column_num "IG_TOTAL" df);
           indicadores :=
             map (fun codigo =>
                    (codigo,
                     {| promedio := mean (column_num codigo df);
                        minimo := serie_min (column_num codigo df);
                        maximo := serie_max (column_num codigo df);
                        cumple_meta := cuenta_cumple (meta self) codigo df |}))
                 (filter (fun codigo => mem codigo (columns df))
                         (map fst INDICADORES)) |}
  end.

End ProactiveEngine.

(* ================================================================== *)
(** * The composite index of [modules/calculator.py]                   *)
(* ================================================================== *)

Module Calculator.

Import Py.
Open Scope string_scope.
Open Scope float_scope.

Definition PESOS : list (string * Z) :=
  [ ("IART", 5%Z); ("OPAS", 3%Z); ("IDPS", 2%Z); ("IDS", 3%Z);
    ("IENTS", 1%Z); ("IOSEA", 4%Z); ("ICAI", 4%Z) ].

(** [sum(PESOS.values())] *)
Definition SUMA_PESOS : Z := fold_left Z.add (map snd PESOS) 0%Z.

Definition peso_de (c : string) : float :=
  float_of_Z (match find (fun kv => String.eqb (fst kv) c) PESOS with
              | Some kv => snd kv
              | None => 0%Z
              end).

Definition calcular_ig_total (iart opas idps ids ients iosea icai : float) : float :=
  let ponderado :=
    peso_de "IART" * iart +
    peso_de "OPAS" * opas +
    peso_de "IDPS" * idps +
    peso_de "IDS" * ids +
    peso_de "IENTS" * ients +
    peso_de "IOSEA" * iosea +
    peso_de "ICAI" * icai in
  ponderado / float_of_Z SUMA_PESOS.

(** ** The other formulas of [SSOCalculator] *)

Import SafeArithmetic.

(** [FACTOR_HHT = 200_000] *)
Definition FACTOR_HHT : Z := 200000%Z.

Definition calcular_if (accidentes horas_trabajadas : float) : float :=
  let numerador := accidentes * float_of_Z FACTOR_HHT in
  _safe_divide numerador horas_trabajadas.

Definition calcular_ig (dias_perdidos horas_trabajadas : float) : float :=
  let numerador := dias_perdidos * float_of_Z FACTOR_HHT in
  _safe_divide numerador horas_trabajadas.

Definition calcular_iart (ejecutadas programadas : float) : float :=
  _safe_divide ejecutadas programadas * 100.

Definition calcular_opas
    (realizadas personas_conformes programadas personas_previstas : float) : float :=
  let numerador := realizadas * personas_conformes in
  let denominador := programadas * personas_previstas in
  _safe_divide numerador denominador * 100.

Definition calcular_idps (realizadas asistentes planeadas previstos : float) : float :=
  let numerador := realizadas * asistentes in
  let denominador := planeadas * previstos in
  _safe_divide numerador denominador * 100.

Definition calcular_ids (eliminadas detectadas : float) : float :=
  _safe_divide eliminadas detectadas * 100.

Definition calcular_ients (entrenados programados : float) : float :=
  _safe_divide entrenados programados * 100.

Definition calcular_iosea (cumplidos aplicables : float) : float :=
  _safe_divide cumplidos aplicables * 100.

Definition calcular_icai (implementadas propuestas : float) : float :=
  _safe_divide implementadas propuestas * 100.

Definition calcular_ief (auditados totales : float) : float :=
  _safe_divide auditados totales * 100.

(** [procesar_dataframe]: eleven columns added one after the other, each
    computed row by row; [row.get(c, 0)] reads a field the row lacks as
    0.  The fields read hold numbers: a text cell is read as a missing
    value, which is what the guarded division makes of it (0.0); in the
    products of OPAS and IDPS Python's [*] on text is outside of this
    definition. *)
Definition procesar_dataframe (df : DataFrame) : DataFrame :=
  let df :=
    assign "IF"
      (fun r => CNum (calcular_if (valor r "accidentes")
                                  (valor r "horas_trabajadas"))) df in
  let df :=
    assign "IG"
      (fun r => CNum (calcular_ig (valor r "dias_perdidos")
                                  (valor r "horas_trabajadas"))) df in
  let df :=
    assign "IART"
      (fun r => CNum (calcular_iart (valor r "nart_ejec")
                                    (valor r "nart_prog"))) df in
  let df :=
    assign "OPAS"
      (fun r => CNum (calcular_opas (valor r "opas_real")
                                    (valor r "opas_personas_conf")
                                    (valor r "opas_prog")
                                    (valor r "opas_personas_prev"))) df in
  let df :=
    assign "IDPS"
      (fun r => CNum (calcular_idps (valor r "dps_real")
                                    (valor r "dps_asistentes")
                                    (valor r "dps_plan")
                                    (valor r "dps_previstos"))) df in
  let df :=
    assign "IDS"
      (fun r => CNum (calcular_ids (valor r "ds_eliminadas")
                                   (valor r "ds_detectadas"))) df in
  let df :=
    assign "IENTS"
      (fun r => CNum (calcular_ients (valor r "ent_entrenados")
                                     (valor r "ent_programados"))) df in
  let df :=
    assign "IOSEA"
      (fun r => CNum (calcular_iosea (valor r "osea_cumplidos")
                                     (valor r "osea_aplicables"))) df in
  let df :=
    assign "ICAI"
      (fun r => CNum (calcular_icai (valor r "cai_implement")
                                    (valor r "cai_propuestas"))) df in
  let df :=
    assign "IEF"
      (fun r => CNum (calcular_ief (valor r "ef_auditados")
                                   (valor r "ef_totales"))) df in
  assign "IG_TOTAL"
    (fun r => CNum (calcular_ig_total
                      (num r "IART") (num r "OPAS") (num r "IDPS")
                      (num r "IDS") (num r "IENTS") (num r "IOSEA")
                      (num r "ICAI"))) df.

(** ['CUMPLE' if valor >= meta else 'NO CUMPLE'] *)
Definition evaluar_cumplimiento (valor meta : float) : string :=
  if meta <=? valor then "CUMPLE" else "NO CUMPLE".

(** [agregar_estado_cumplimiento]; [None] stands for the exception that
    Python raises when the table has no column [IG_TOTAL] ([KeyError])
    or when a cell of that column holds text ([TypeError] of [>=]). *)
Definition agregar_estado_cumplimiento (df : DataFrame) (meta : float)
  : option DataFrame :=
  if mem "IG_TOTAL" (columns df)
     && forallb (fun r => match get r "IG_TOTAL" with
                          | Some (CStr _) => false
                          | _ => true
                          end) (rows df)
  then Some (assign "Estado"
               (fun r => CStr (evaluar_cumplimiento (num r "IG_TOTAL") meta)) df)
  else None.

End Calculator.

(* ================================================================== *)
(** * Validator ([modules/validator.py])                               *)
(* ================================================================== *)

Module Validator.

Import Py.
Open Scope string_scope.
Open Scope float_scope.

Inductive TipoAnalisis : Type := REACTIVO | PROACTIVO | AMBOS.

Definition value (t : TipoAnalisis) : string :=
  match t with
  | REACTIVO => "reactivo"
  | PROACTIVO => "proactivo"
  | AMBOS => "ambos"
  end.

Record ValidationError : Type := {
  columna : string;
  mensaje : string;
  tipo : string;
  fila : option Z
}.

Record ValidationResult : Type := {
  es_valido : bool;
  errores : list ValidationError;
  warnings : list ValidationError;
  df_limpio : option DataFrame;
  resumen : row
}.

(** [ValidationResult(es_valido=True)] *)
Definition nuevo_resultado : ValidationResult :=
  {| es_valido := true; errores := []; warnings := [];
     df_limpio := None; resumen := [] |}.

Definition agregar_error (self : ValidationResult) (columna mensaje : string)
  : ValidationResult :=
  {| es_valido := false;
     errores := (errores self ++
                 [ {| columna := columna; mensaje := mensaje;
                      tipo := "error"; fila := None |} ])%list;
     warnings := warnings self;
     df_limpio := df_limpio self;
     resumen := resumen self |}.

Definition agregar_warning (self : ValidationResult) (columna mensaje : string)
  : ValidationResult :=
  {| es_valido := es_valido self;
     errores := errores self;
     warnings := (warnings self ++
                  [ {| columna := columna; mensaje := mensaje;
                       tipo := "warning"; fila := None |} ])%list;
     df_limpio := df_limpio self;
     resumen := resumen self |}.

Definition COLUMNAS_REACTIVO : list (string * string) :=
  [ ("mes", "Mes (texto o número)");
    ("horas_trabajadas", "Horas Hombre Trabajadas");
    ("num_lesiones", "Número de Lesiones/Accidentes");
    ("dias_perdidos", "Días Perdidos por Incapacidad") ].

Definition ALIAS_REACTIVO : list (string * list string) :=
  [ ("mes", ["mes"; "month"; "periodo"; "fecha"; "meses"]);
    ("horas_trabajadas",
       ["horas_trabajadas"; "horas"; "horas_hombre"; "hh";
        "horas trabajadas"; "total_horas"; "h/h"]);
    ("num_lesiones",
       ["num_lesiones"; "lesiones"; "accidentes"; "num_accidentes";
        "numero_lesiones"; "número de lesiones"; "n_lesiones"]);
    ("dias_perdidos",
       ["dias_perdidos"; "dias"; "días perdidos"; "días_perdidos";
        "dias_incapacidad"; "jornadas_perdidas"; "d_perdidos"]) ].

Definition ALIAS_PROACTIVO : list (string * list string) :=
  [ ("mes", ["mes"; "month"; "periodo"; "fecha"; "meses"]);
    ("iart_real", ["iart_real"; "iart real"; "art_real"; "iart_r"]);
    ("iart_programado", ["iart_programado"; "iart programado"; "art_prog"; "iart_p"]);
    ("opas_real", ["opas_real"; "opas real"; "opas_r"]);
    ("opas_programado", ["opas_programado"; "opas programado"; "opas_p"]);
    ("idps_real", ["idps_real"; "idps real"; "dps_real"; "idps_r"]);
    ("idps_programado", ["idps_programado"; "idps programado"; "dps_prog"; "idps_p"]);
    ("ids_real", ["ids_real"; "ids real"; "ds_real"; "ids_r"]);
    ("ids_programado", ["ids_programado"; "ids programado"; "ds_prog"; "ids_p"]);
    ("ients_real", ["ients_real"; "ients real"; "ents_real"; "ients_r"]);
    ("ients_programado", ["ients_programado"; "ients programado"; "ents_prog"; "ients_p"]);
    ("iosea_real", ["iosea_real"; "iosea real"; "osea_real"; "iosea_r"]);
    ("iosea_programado", ["iosea_programado"; "iosea programado"; "osea_prog"; "iosea_p"]);
    ("icai_real", ["icai_real"; "icai real"; "cai_real"; "icai_r"]);
    ("icai_programado", ["icai_programado"; "icai programado"; "cai_prog"; "icai_p"]) ].

(** [d[k] = v] on an ordered dictionary. *)
Fixpoint dict_set {A : Type} (d : list (string * A)) (k : string) (v : A)
  : list (string * A) :=
  match d with
  | [] => [(k, v)]
  | (k', w) :: d' =>
      if String.eqb k' k then (k', v) :: d' else (k', w) :: dict_set d' k v
  end.

(** [d.update(other)] *)
Definition dict_update {A : Type} (d other : list (string * A)) : list (string * A) :=
  fold_left (fun acc kv => dict_set acc (fst kv) (snd kv)) other d.

Fixpoint dict_get {A : Type} (d : list (string * A)) (k : string) : option A :=
  match d with
  | [] => None
  | (k', v) :: d' => if String.eqb k' k then Some v else dict_get d' k
  end.

Definition normalizar_nombre (col : string) : string :=
  replace_space (strip (lower col)).

Definition alias_map (t : TipoAnalisis) : list (string * list string) :=
  let m := [] in
  let m := match t with
           | REACTIVO | AMBOS => dict_update m ALIAS_REACTIVO
           | PROACTIVO => m
           end in
  match t with
  | PROACTIVO | AMBOS => dict_update m ALIAS_PROACTIVO
  | REACTIVO => m
  end.

(** The inner loop of [_normalizar_columnas]: the first alias present in
    the table, unless the standard name is present already. *)
Fixpoint primer_alias (cols : list string) (col_std : string)
    (aliases : list string) : option string :=
  match aliases with
  | [] => None
  | alias :: aliases' =>
      let alias_norm := normalizar_nombre alias in
      if mem alias_norm cols && negb (mem col_std cols) then Some alias_norm
      else primer_alias cols col_std aliases'
  end.

Definition rename_map (t : TipoAnalisis) (cols : list string)
  : list (string * string) :=
  fold_left
    (fun rm entry =>
       match primer_alias cols (fst entry) (snd entry) with
       | Some alias_norm => dict_set rm alias_norm (fst entry)
       | None => rm
       end)
    (alias_map t) [].

Definition _normalizar_columnas (t : TipoAnalisis) (df : DataFrame) : DataFrame :=
  let df := rename_columns normalizar_nombre df in
  let rm := rename_map t (columns df) in
  rename_columns
    (fun c => match dict_get rm c with Some c' => c' | None => c end) df.

(** [str(n)] for a count. *)
Definition str_of_nat (n : nat) : string :=
  DecimalString.NilZero.string_of_uint (Nat.to_uint n).

Definition upper_ascii (c : ascii) : ascii :=
  let n := nat_of_ascii c in
  if (97 <=? n)%nat && (n <=? 122)%nat then ascii_of_nat (n - 32) else c.

Fixpoint upper (s : string) : string :=
  match s with
  | EmptyString => EmptyString
  | String c s' => String (upper_ascii c) (upper s')
  end.

(** [(mask).sum()] for a condition on a numeric column. *)
Definition count_where (p : float -> bool) (c : string) (df : DataFrame) : nat :=
  List.length (filter p (column_num c df)).

Section Coercion.

Variable parse_number : string -> option float.

(** The first loop over the numeric columns of [_validar_reactivo]. *)
Definition paso_numerico (st : DataFrame * ValidationResult) (col : string)
  : DataFrame * ValidationResult :=
  let '(df, resultado) := st in
  let df := assign col (fun r => CNum (to_numeric parse_number (get r col))) df in
  let nulos := count_where is_nan col df in
  (df,
   if (0 <? nulos)%nat
   then agregar_warning resultado col
          (str_of_nat nulos ++ " valores no numéricos convertidos a NaN")
   else resultado).

(** The second loop: negative values. *)
Definition paso_negativos (df : DataFrame) (resultado : ValidationResult)
    (col : string) : ValidationResult :=
  let negativos := count_where (fun x => x <? 0) col df in
  if (0 <? negativos)%nat
  then agregar_error resultado col
         (str_of_nat negativos ++ " valores negativos encontrados")
  else resultado.

Definition _validar_reactivo (df : DataFrame) (resultado : ValidationResult)
  : DataFrame * ValidationResult :=
  let columnas_faltantes :=
    map (fun kv => fst kv ++ " (" ++ snd kv ++ ")")
        (filter (fun kv => negb (mem (fst kv) (columns df))) COLUMNAS_REACTIVO) in
  match columnas_faltantes with
  | _ :: _ =>
      (df,
       agregar_error resultado "columnas"
         ("Columnas faltantes para análisis REACTIVO: "
          ++ join ", " columnas_faltantes))
  | [] =>
      let numericas := ["horas_trabajadas"; "num_lesiones"; "dias_perdidos"] in
      let '(df, resultado) := fold_left paso_numerico numericas (df, resultado) in
      let resultado := fold_left (paso_negativos df) numericas resultado in
      let ceros_horas := count_where (fun x => x =? 0) "horas_trabajadas" df in
      (df,
       if (0 <? ceros_horas)%nat
       then agregar_warning resultado "horas_trabajadas"
              (str_of_nat ceros_horas ++ " meses con 0 horas trabajadas")
       else resultado)
  end.

(** One turn of the loop over the indicator families of
    [_validar_proactivo]. *)
Definition paso_par (st : DataFrame * ValidationResult) (ind : string)
  : DataFrame * ValidationResult :=
  let '(df, resultado) := st in
  let col_real := ind ++ "_real" in
  let col_prog := ind ++ "_programado" in
  let resultado :=
    if mem col_real (columns df) && negb (mem col_prog (columns df))
    then agregar_warning resultado col_prog
           ("Falta columna programada para " ++ upper ind)
    else if mem col_prog (columns df) && negb (mem col_real (columns df))
    then agregar_warning resultado col_real
           ("Falta columna real para " ++ upper ind)
    else resultado in
  let df :=
    fold_left
      (fun df col =>
         if mem col (columns df)
         then assign col
                (fun r => CNum (fillna0 (to_numeric parse_number (get r col)))) df
         else df)
      [col_real; col_prog] df in
  (df, resultado).

Definition _validar_proactivo (df : DataFrame) (resultado : ValidationResult)
  : DataFrame * ValidationResult :=
  let columnas_minimas := ["mes"; "iart_real"; "iart_programado"] in
  let columnas_faltantes :=
    filter (fun col => negb (mem col (columns df))) columnas_minimas in
  match columnas_faltantes with
  | _ :: _ =>
      (df,
       agregar_error resultado "columnas"
         ("Columnas mínimas faltantes para análisis PROACTIVO: "
          ++ join ", " columnas_faltantes))
  | [] =>
      fold_left paso_par
        ["iart"; "opas"; "idps"; "ids"; "ients"; "iosea"; "icai"]
        (df, resultado)
  end.

Definition _generar_resumen (t : TipoAnalisis) (df : DataFrame) : row :=
  let resumen :=
    [ ("total_registros", CInt (Z.of_nat (List.length (rows df))));
      ("tipo_analisis", CStr (value t)) ] in
  match t with
  | REACTIVO | AMBOS =>
      let resumen :=
        if mem "horas_trabajadas" (columns df)
        then set resumen "total_horas" (CNum (sum (column_num "horas_trabajadas" df)))
        else resumen in
      let resumen :=
        if mem "num_lesiones" (columns df)
        then set resumen "total_lesiones" (CNum (sum (column_num "num_lesiones" df)))
        else resumen in
      if mem "dias_perdidos" (columns df)
      then set resumen "total_dias_perdidos" (CNum (sum (column_num "dias_perdidos" df)))
      else resumen
  | PROACTIVO => resumen
  end.

(** [DataValidator(tipo_analisis).validar(df)]; [None] is Python's
    [None]. *)
Definition validar (tipo_analisis : TipoAnalisis) (df : option DataFrame)
  : ValidationResult :=
  let resultado := nuevo_resultado in
  match df with
  | None => agregar_error resultado "general" "El DataFrame está vacío o es nulo"
  | Some df =>
      if empty df
      then agregar_error resultado "general" "El DataFrame está vacío o es nulo"
      else
        let df_normalizado := _normalizar_columnas tipo_analisis df in
        let '(df_normalizado, resultado) :=
          match tipo_analisis with
          | REACTIVO => _validar_reactivo df_normalizado resultado
          | PROACTIVO => _validar_proactivo df_normalizado resultado
          | AMBOS =>
              let '(df_normalizado, resultado) :=
                _validar_reactivo df_normalizado resultado in
              if es_valido resultado
              then _validar_proactivo df_normalizado resultado
              else (df_normalizado, resultado)
          end in
        if es_valido resultado
        then {| es_valido := es_valido resultado;
                errores := errores resultado;
                warnings := warnings resultado;
                df_limpio := Some df_normalizado;
                resumen := _generar_resumen tipo_analisis df_normalizado |}
        else resultado
  end.

End Coercion.


End Validator.


(* ================================================================== *)
(** * Facts about binary64 arithmetic                                *)
(* ================================================================== *)

Module FloatFacts.

Open Scope float_scope.


Definition sf_is_zero (f : spec_float) : bool :=
  match f with S754_zero _ => true | _ => false end.

Lemma SFcompare_refl f : f <> S754_nan -> SFcompare f f = Some Eq.
Proof.
  destruct f as [s | s | | s m e]; simpl; intros H; try congruence.
  - destruct s; reflexivity.
  - rewrite Z.compare_refl.
    change (Pos.compare_cont Eq m m) with (Pos.compare m m).
    rewrite Pos.compare_refl. destruct s; reflexivity.
Qed.

Lemma is_nan_true x : is_nan x = true -> Prim2SF x = S754_nan.
Proof.
  unfold is_nan. rewrite FloatAxioms.eqb_spec. unfold SFeqb. intros H.
  destruct (Prim2SF x) eqn:E; try reflexivity;
    rewrite SFcompare_refl in H by discriminate; discriminate.
Qed.

Lemma is_nan_false x : is_nan x = false -> Prim2SF x <> S754_nan.
Proof.
  unfold is_nan. rewrite FloatAxioms.eqb_spec. unfold SFeqb. intros H E.
  rewrite E in H. discriminate.
Qed.


Lemma eqb0_zero x : (x =? 0) = sf_is_zero (Prim2SF x).
Proof.
  rewrite FloatAxioms.eqb_spec. change (Prim2SF 0) with (S754_zero false).
  unfold SFeqb. destruct (Prim2SF x) as [s | s | | s m e]; simpl;
    try destruct s; reflexivity.
Qed.







Lemma SFcompare_antisym a b c :
  SFcompare a b = Some c -> SFcompare b a = Some (CompOpp c).
Proof.
  destruct a as [sa | sa | | sa ma ea], b as [sb | sb | | sb mb eb];
    simpl; intros H; try discriminate;
    try (destruct sa); try (destruct sb); simpl in *;
    try (injection H as <-; reflexivity).
  all: injection H as <-; rewrite (Z.compare_antisym ea eb);
    destruct (Z.compare ea eb); simpl; try reflexivity;
    change (Pos.compare_cont Eq mb ma) with (Pos.compare mb ma);
    change (Pos.compare_cont Eq ma mb) with (Pos.compare ma mb);
    rewrite (Pos.compare_antisym ma mb); try reflexivity;
    rewrite CompOpp_involutive; reflexivity.
Qed.

(** The order is total away from NaN. *)
Lemma not_ltb_leb x y :
  is_nan x = false -> is_nan y = false -> (y <? x) = false -> (x <=? y) = true.
Proof.
  intros Hx Hy. apply is_nan_false in Hx, Hy.
  rewrite FloatAxioms.ltb_spec, FloatAxioms.leb_spec. unfold SFltb, SFleb.
  destruct (SFcompare (Prim2SF y) (Prim2SF x)) as [c|] eqn:E.
  - rewrite (SFcompare_antisym _ _ _ E). destruct c; simpl; congruence.
  - destruct (Prim2SF x), (Prim2SF y); simpl in E; try discriminate; congruence.
Qed.

(** Two floats that a boolean test tells apart are different. *)
Lemma float_neq (f : float -> bool) x y : f x <> f y -> x <> y.
Proof. intros H E. apply H. rewrite E. reflexivity. Qed.



End FloatFacts.

(* ================================================================== *)
(** * Facts about records, tables and text                           *)
(* ================================================================== *)

Module RowFacts.

Import Py.
Open Scope string_scope.
Open Scope float_scope.

Lemma get_set_eq r c v : get (set r c v) c = Some v.
Proof.
  induction r as [| [k w] r IH]; simpl.
  - rewrite String.eqb_refl. reflexivity.
  - destruct (String.eqb k c) eqn:E; simpl; rewrite E; auto.
Qed.

Lemma get_set_neq r c v c' : String.eqb c c' = false -> get (set r c v) c' = get r c'.
Proof.
  intros H. induction r as [| [k w] r IH]; simpl.
  - rewrite H. reflexivity.
  - destruct (String.eqb k c) eqn:E; simpl.
    + apply String.eqb_eq in E. subst k. rewrite H. reflexivity.
    + destruct (String.eqb k c'); auto.
Qed.

Lemma rows_assign c f df :
  rows (assign c f df) = map (fun r => set r c (f r)) (rows df).
Proof. reflexivity. Qed.

Lemma In_insert_sorted c x r l :
  In x (insert_sorted c r l) <-> x = r \/ In x l.
Proof.
  induction l as [| y l IH]; simpl.
  - intuition.
  - destruct (clave c r <=? clave c y)%Z; simpl; rewrite ?IH; intuition.
Qed.

Lemma In_sort_rows c x l : In x (sort_rows c l) <-> In x l.
Proof.
  induction l as [| r l IH]; simpl.
  - tauto.
  - rewrite In_insert_sorted, IH. intuition.
Qed.


Lemma In_rows_assign c f df r :
  In r (rows (assign c f df)) -> exists r0, In r0 (rows df) /\ r = set r0 c (f r0).
Proof.
  simpl. rewrite in_map_iff. intros [r0 [E H]]. exists r0. auto.
Qed.

(** Unfolds membership in a table built by successive column
    assignments into the chain of record updates. *)
Ltac invert_rows H :=
  repeat (let r0 := fresh "r" in let E := fresh "E" in
          apply In_rows_assign in H; destruct H as [r0 [H E]]).

Lemma valor_set_neq r c v c' : String.eqb c c' = false -> valor (set r c v) c' = valor r c'.
Proof. intros H. unfold valor, get_or_0. rewrite get_set_neq by exact H. reflexivity. Qed.

Lemma num_set_neq r c v c' : String.eqb c c' = false -> num (set r c v) c' = num r c'.
Proof. intros H. unfold num. rewrite get_set_neq by exact H. reflexivity. Qed.

Lemma num_set_eq r c x : num (set r c (CNum x)) c = x.
Proof. unfold num. rewrite get_set_eq. reflexivity. Qed.

Lemma valor_set_eq r c x : valor (set r c (CNum x)) c = x.
Proof. unfold valor, get_or_0. rewrite get_set_eq. reflexivity. Qed.

Lemma get_or_0_set_neq r c v c' :
  String.eqb c c' = false -> get_or_0 (set r c v) c' = get_or_0 r c'.
Proof. intros H. unfold get_or_0. rewrite get_set_neq by exact H. reflexivity. Qed.

Lemma get_or_0_set_eq r c v : get_or_0 (set r c v) c = v.
Proof. unfold get_or_0. rewrite get_set_eq. reflexivity. Qed.

(** Reads through record updates. *)
Ltac row_simpl :=
  repeat first [ rewrite get_set_eq
               | rewrite get_or_0_set_eq
               | rewrite get_or_0_set_neq by reflexivity
               | rewrite get_set_neq by reflexivity
               | rewrite num_set_eq
               | rewrite num_set_neq by reflexivity
               | rewrite valor_set_eq
               | rewrite valor_set_neq by reflexivity ].

(** Replaces each record by its update, outermost first, reading
    through the update at once so that terms stay small. *)
Ltac peel :=
  row_simpl;
  repeat match goal with
         | E : ?r = set _ _ _ |- context [?r] => rewrite E; row_simpl
         end.



Lemma mem_In c l : mem c l = true <-> In c l.
Proof.
  unfold mem. rewrite existsb_exists. split.
  - intros [x [H E]]. apply String.eqb_eq in E. subst. exact H.
  - intros H. exists c. split; [exact H | apply String.eqb_refl].
Qed.

End RowFacts.

Module TextFacts.

Import Py.
Open Scope string_scope.






End TextFacts.

(* ================================================================== *)
(** * Safe division                                                  *)
(* ================================================================== *)

Module SafeDivideProps.

Import Py SafeArithmetic.
Open Scope float_scope.

(** C4.  For every numerator [x] and denominator [d], [_safe_divide x d]
    is [0.0] when [d] is zero (of either sign) or NaN, or when the
    quotient [x / d] is NaN or infinite, and is [x / d] otherwise.  It is
    a total function of two floats, so no arithmetic error leaves it; its
    result is never NaN nor infinite, and [_safe_divide x 0 = 0.0] for
    every [x]. *)
Theorem safe_divide_contract (x d : float) :
  _safe_divide x d =
    (if (d =? 0) || isna d || isna (x / d) || isinf (x / d) then 0 else x / d)
  /\ _safe_divide x 0 = 0
  /\ _safe_divide x (-0) = 0
  /\ _safe_divide x nan = 0
  /\ isna (_safe_divide x d) = false
  /\ isinf (_safe_divide x d) = false.
Proof.
  unfold _safe_divide.
  repeat split; try reflexivity.
  - destruct ((d =? 0) || isna d); simpl; [reflexivity |].
    destruct (isna (x / d) || isinf (x / d)); reflexivity.
  - destruct ((d =? 0) || isna d); [reflexivity |]. cbv zeta.
    destruct (isna (x / d)) eqn:E1; simpl; [reflexivity |].
    destruct (isinf (x / d)); [reflexivity | exact E1].
  - destruct ((d =? 0) || isna d); [reflexivity |]. cbv zeta.
    destruct (isna (x / d)) eqn:E1; simpl; [reflexivity |].
    destruct (isinf (x / d)) eqn:E2; [reflexivity | exact E2].
Qed.

End SafeDivideProps.

(* ================================================================== *)
(** * Proactive indicators and the composite index                   *)
(* ================================================================== *)

Module ProactiveProps.

Import Py SafeArithmetic ProactiveEngine FloatFacts RowFacts.
Open Scope string_scope.
Open Scope float_scope.






(** A month of proactive data: IART 12 of 10, OPAS 8 * 30 over 10 * 40. *)
Definition ejemplo_fila : row :=
  [ ("mes", CStr "Enero");
    ("nart_prog", CNum 10); ("nart_ejec", CNum 12);
    ("opas_prog", CNum 10); ("opas_real", CNum 8);
    ("opas_personas_prev", CNum 40); ("opas_personas_conf", CNum 30);
    ("dps_plan", CNum 4); ("dps_real", CNum 4);
    ("dps_previstos", CNum 20); ("dps_asistentes", CNum 18);
    ("ds_detectadas", CNum 5); ("ds_eliminadas", CNum 4);
    ("ent_programados", CNum 20); ("ent_entrenados", CNum 15);
    ("osea_aplicables", CNum 0); ("osea_cumplidos", CNum 0);
    ("cai_propuestas", CNum 3); ("cai_implement", CNum 3);
    ("ef_totales", CNum 20); ("ef_auditados", CNum 19) ].

Definition ejemplo_tabla : DataFrame :=
  {| columns := map fst ejemplo_fila; rows := [ejemplo_fila] |}.

(** The table of a successful run. *)
Definition salida (res : result DataFrame) : DataFrame :=
  match res with Ok d => d | Raise _ => {| columns := []; rows := [] |} end.

Definition ejemplo_salida : DataFrame :=
  Eval vm_compute in salida (snd (procesar sin_parser (init None) ejemplo_tabla)).

Definition ejemplo_fila_salida : row :=
  Eval vm_compute in List.hd [] (rows ejemplo_salida).



(** The same month with [nart_ejec = 1e308] and [nart_prog = 1]. *)
Definition fila_desborde : row :=
  set (set ejemplo_fila "nart_ejec" (CNum 1e308)) "nart_prog" (CNum 1).

Definition tabla_desborde : DataFrame :=
  {| columns := map fst ejemplo_fila; rows := [fila_desborde] |}.

Definition desborde_salida : DataFrame :=
  Eval vm_compute in salida (snd (procesar sin_parser (init None) tabla_desborde)).

Definition desborde_fila_salida : row :=
  Eval vm_compute in List.hd [] (rows desborde_salida).



(** The cell holds text. *)
Definition es_texto (v : cell) : bool :=
  match v with CStr _ => true | _ => false end.

(** No weighted indicator of the record holds text. *)
Definition sin_texto (r : row) : bool :=
  forallb (fun ic => negb (0 <? peso (snd ic))%Z
                     || negb (es_texto (get_or_0 r (fst ic)))) INDICADORES.

(** The weighted sum as the loop of [_calcular_ig_total] accumulates it,
    from the initial 0. *)
Definition suma_ponderada (v : string -> float) : float :=
  0 + 5 * v "IART" + 3 * v "OPAS" + 2 * v "IDPS" + 3 * v "IDS"
    + 1 * v "IENTS" + 4 * v "IOSEA" + 4 * v "ICAI".

Lemma sumas_cons_peso c cfg inds r acc :
  (0 <? peso cfg)%Z = true -> es_texto (get_or_0 r c) = false ->
  sumas_ponderadas ((c, cfg) :: inds) r acc =
  sumas_ponderadas inds r
    (fst acc + float_of_Z (peso cfg) * valor r c, (snd acc + peso cfg)%Z).
Proof.
  intros Hp Ht. simpl. rewrite Hp. unfold valor.
  destruct (get_or_0 r c); [reflexivity | reflexivity | discriminate].
Qed.

(** The sum of the weights that count. *)
Fixpoint total_pesos (inds : list (string * IndicadorConfig)) : Z :=
  match inds with
  | [] => 0%Z
  | ic :: inds' =>
      if (0 <? peso (snd ic))%Z then (peso (snd ic) + total_pesos inds')%Z
      else total_pesos inds'
  end.

Lemma sumas_pesos inds r acc s w :
  sumas_ponderadas inds r acc = Some (s, w) ->
  w = (snd acc + total_pesos inds)%Z.
Proof.
  revert acc. induction inds as [| [c cfg] inds IH]; intros acc H; simpl in *.
  - injection H as ->. simpl. lia.
  - destruct (0 <? peso cfg)%Z eqn:Hp.
    + destruct (get_or_0 r c); try discriminate;
        apply IH in H; simpl in H; lia.
    + apply IH in H. exact H.
Qed.

Lemma sumas_set_sin_peso inds r c0 x acc :
  (forall ic, In ic inds -> String.eqb c0 (fst ic) = true ->
              (0 <? peso (snd ic))%Z = false) ->
  sumas_ponderadas inds (set r c0 x) acc = sumas_ponderadas inds r acc.
Proof.
  revert acc. induction inds as [| [c cfg] inds IH]; intros acc H; simpl.
  - reflexivity.
  - assert (IH' : forall acc, sumas_ponderadas inds (set r c0 x) acc
                              = sumas_ponderadas inds r acc).
    { intros acc'. apply IH. intros ic Hin. apply H. right. exact Hin. }
    destruct (0 <? peso cfg)%Z eqn:Hp; [| apply IH'].
    assert (E : String.eqb c0 c = false).
    { destruct (String.eqb c0 c) eqn:E; [| reflexivity].
      pose proof (H (c, cfg) (or_introl eq_refl) E) as Hq. simpl in Hq.
      rewrite Hq in Hp. discriminate. }
    unfold get_or_0. rewrite RowFacts.get_set_neq by exact E.
    destruct (get r c) as [[y | n | t] |]; try reflexivity; apply IH'.
Qed.

Lemma ig_total_fila (fila : row) :
  sin_texto fila = true ->
  sumas_ponderadas INDICADORES fila (0, 0%Z)
    = Some (suma_ponderada (valor fila), 22%Z)
  /\ _calcular_ig_total fila = suma_ponderada (valor fila) / 22.
Proof.
  intros H. unfold sin_texto, INDICADORES in H. simpl in H.
  repeat (apply andb_prop in H; destruct H as [?H H]).
  repeat match goal with
         | H : negb (es_texto _) = true |- _ => apply negb_true_iff in H
         end.
  assert (E : sumas_ponderadas INDICADORES fila (0, 0%Z)
              = Some (suma_ponderada (valor fila), 22%Z)).
  { unfold INDICADORES.
    repeat (rewrite sumas_cons_peso by (first [reflexivity | assumption])).
    reflexivity. }
  split; [exact E |].
  unfold _calcular_ig_total. rewrite E. reflexivity.
Qed.

(** C3.  On every row that [procesar] returns, IG_TOTAL is
    (5 IART + 3 OPAS + 2 IDPS + 3 IDS + 1 IENTS + 4 IOSEA + 4 ICAI) / 22.
    For any record, whichever indicators it carries, the loop of
    [_calcular_ig_total] ends with the sum of weights 22: an indicator
    the record lacks counts as 0 in the weighted sum and leaves the
    divisor alone; IEF has weight 0 and changing it changes nothing.  The
    composite of [calculator.py] divides by the same constant. *)
Theorem ig_total_ponderado parse self df out r :
  snd (procesar parse self df) = Ok out -> In r (rows out) ->
  get r "IG_TOTAL" = Some (CNum (suma_ponderada (num r) / 22))
  /\ (forall fila s w,
        sumas_ponderadas INDICADORES fila (0, 0%Z) = Some (s, w) -> w = 22%Z)
  /\ (forall fila, sin_texto fila = true ->
        _calcular_ig_total fila = suma_ponderada (valor fila) / 22)
  /\ (forall fila x,
        _calcular_ig_total (set fila "IEF" x) = _calcular_ig_total fila)
  /\ (forall x, _calcular_ig_total [("IART", CNum x)]
                = (0 + 5 * x + 3 * 0 + 2 * 0 + 3 * 0 + 1 * 0 + 4 * 0 + 4 * 0) / 22)
  /\ Calculator.SUMA_PESOS = 22%Z
  /\ (forall iart opas idps ids ients iosea icai,
        Calculator.calcular_ig_total iart opas idps ids ients iosea icai
        = (5 * iart + 3 * opas + 2 * idps + 3 * ids + 1 * ients
           + 4 * iosea + 4 * icai) / 22).
Proof.
  intros Hout Hin.
  split; [| split; [| split; [| split; [| split; [| split]]]]].
  - revert Hout Hin.
    unfold procesar. destruct (_validar_columnas _); cbn [snd]; intros H; [| discriminate].
    injection H as <-. intros H.
    unfold INDICADORES in H. cbn [fold_left calcular_columna] in H.
    invert_rows H. cbn [col_numerador col_denominador] in *.
    unfold suma_ponderada.
    rewrite E, E0, E1; row_simpl. clear E E0 E1.
    assert (S : sin_texto r2 = true).
    { unfold sin_texto, INDICADORES; cbn [forallb fst snd peso]. peel. reflexivity. }
    rewrite (proj2 (ig_total_fila r2 S)).
    unfold suma_ponderada. peel. reflexivity.
  - intros fila s w H. apply sumas_pesos in H. exact H.
  - intros fila H. apply ig_total_fila. exact H.
  - intros fila x. unfold _calcular_ig_total.
    rewrite sumas_set_sin_peso; [reflexivity |].
    intros ic Hic E. unfold INDICADORES in Hic. simpl in Hic.
    repeat (destruct Hic as [Hic | Hic]; [subst ic; simpl in E; try discriminate |]).
    + reflexivity.
    + contradiction.
  - intros x. apply (ig_total_fila [("IART", CNum x)]). reflexivity.
  - reflexivity.
  - intros. reflexivity.
Qed.

Lemma ig_total_ponderado_witness :
  snd (procesar sin_parser (init None) ejemplo_tabla) = Ok ejemplo_salida
  /\ In ejemplo_fila_salida (rows ejemplo_salida)
  /\ get ejemplo_fila_salida "IG_TOTAL"
       = Some (CNum ((0 + 5 * 100 + 3 * 60 + 2 * 90 + 3 * 80 + 1 * 75
                      + 4 * 0 + 4 * 100) / 22)).
Proof.
  assert (H1 : snd (procesar sin_parser (init None) ejemplo_tabla) = Ok ejemplo_salida)
    by (vm_compute; reflexivity).
  assert (H2 : In ejemplo_fila_salida (rows ejemplo_salida))
    by (left; reflexivity).
  destruct (ig_total_ponderado sin_parser (init None) ejemplo_tabla
              ejemplo_salida ejemplo_fila_salida H1 H2) as [A _].
  split; [exact H1 |]. split; [exact H2 |].
  rewrite A. vm_compute. reflexivity.
Defined.

End ProactiveProps.

(* ================================================================== *)
(** * Reactive report: month rows, summaries, ordering               *)
(* ================================================================== *)

Module ReactiveProps.

Import Py SafeArithmetic ReactiveEngine FloatFacts RowFacts.
Open Scope string_scope.
Open Scope float_scope.

(** The monthly table [df_meses] that [procesar] builds from its input. *)
Definition tabla_meses (parse : string -> option float) (df : DataFrame) : DataFrame :=
  _calcular_indices_meses
    (_preparar_datos_base parse (rename_columns normalizar_nombre df)).

Lemma In_rows_sort c df r : In r (rows (sort_values c df)) -> In r (rows df).
Proof. simpl. apply RowFacts.In_sort_rows. Qed.

Lemma fila_mes parse df r :
  In r (rows (tabla_meses parse df)) ->
  get r "total_lesiones" =
    Some (CNum (num r "acc_baja" + num r "acc_sin_baja" + num r "enf_ocupacionales"))
  /\ get r "total_horas" =
    Some (CNum (if 0 <? num r "horas_hombre_mes" then num r "horas_hombre_mes"
                else num r "num_trabajadores" * HORAS_MENSUALES_STD
                     + num r "horas_extras"))
  /\ get r "IF" =
    Some (CNum (_safe_divide (num r "total_lesiones" * 16666.67) (num r "total_horas")))
  /\ get r "IG" =
    Some (CNum (_safe_divide (num r "dias_perdidos" * 16666.67) (num r "total_horas")))
  /\ get r "TR" =
    Some (CNum (_safe_divide (num r "dias_perdidos") (num r "total_lesiones")))
  /\ get r "tipo_fila" = Some (CStr "mes")
  /\ get r "constante_k" = Some (CNum 16666.67).
Proof.
  unfold tabla_meses, _calcular_indices_meses. intros H.
  invert_rows H. unfold _preparar_datos_base in H.
  apply In_rows_sort in H. invert_rows H.
  cbn [MENSUAL K] in *.
  repeat split; peel; reflexivity.
Qed.

(** The month rows of one quarter: [df_meses[df_meses['mes'].isin(meses)]]. *)
Definition df_trim (dm : DataFrame) (t : Z * Trimestre) : DataFrame :=
  select (fun r => isin (get r "mes") (meses (snd t))) dm.

(** The summary row of one quarter. *)
Definition resumen_trimestre (dm : DataFrame) (t : Z * Trimestre) : row :=
  _crear_fila_resumen (df_trim dm t) (nombre (snd t)) "trimestre"
    (TRIMESTRAL K) (fst t * 3)%Z.

(** The row is of the given kind ([tipo_fila]). *)
Definition tipo_es (tipo : string) (r : row) : bool :=
  match get r "tipo_fila" with
  | Some (CStr t) => String.eqb t tipo
  | _ => false
  end.

Lemma filas_trimestre_eq dm t :
  filas_trimestre dm t =
  (rows (df_trim dm t) ++
   match rows (df_trim dm t) with
   | [] => []
   | _ => [resumen_trimestre dm t]
   end)%list.
Proof. destruct t as [n cfg]. reflexivity. Qed.

Lemma In_filas_resultado dm r :
  In r (filas_resultado dm) <->
  (exists t, In t TRIMESTRES /\ In r (rows (df_trim dm t)))
  \/ (exists t, In t TRIMESTRES /\ rows (df_trim dm t) <> [] /\
                r = resumen_trimestre dm t)
  \/ r = fila_anual dm.
Proof.
  unfold filas_resultado. rewrite in_app_iff, in_flat_map.
  split.
  - intros [[t [Ht H]] | H].
    + rewrite filas_trimestre_eq in H. apply in_app_or in H. destruct H as [H | H].
      * left. exists t. split; assumption.
      * right. left. exists t. split; [exact Ht |].
        destruct (rows (df_trim dm t)) as [| x l] eqn:E.
        { destruct H. }
        destruct H as [H | H]; [| destruct H].
        split; [intros D; inversion D | symmetry; exact H].
    + right. right. destruct H as [H | H]; [symmetry; exact H | destruct H].
  - intros [[t [Ht H]] | [[t [Ht [Hne H]]] | H]].
    + left. exists t. split; [exact Ht |]. rewrite filas_trimestre_eq.
      apply in_or_app. left. exact H.
    + left. exists t. split; [exact Ht |]. rewrite filas_trimestre_eq.
      apply in_or_app. right.
      destruct (rows (df_trim dm t)) as [| x l]; [exfalso; apply Hne; reflexivity |].
      left. symmetry. exact H.
    + right. left. symmetry. exact H.
Qed.

Lemma procesar_tablas parse self df [rep ch] :
  snd (procesar parse self df) = Ok (rep, ch) ->
  rows rep = sort_rows "mes_orden" (filas_resultado (tabla_meses parse df))
  /\ rows ch = filter es_mes (rows rep).
Proof.
  unfold procesar. destruct (_validar_columnas _); cbn [snd]; intros H; [| discriminate].
  injection H as <- <-. split; reflexivity.
Qed.


Lemma tipo_resumen ty p nombre tipo k orden :
  tipo_es ty (_crear_fila_resumen p nombre tipo k orden) = String.eqb tipo ty.
Proof. reflexivity. Qed.


(** The ordering rank of a row ([mes_orden]). *)
Definition orden (r : row) : Z := clave "mes_orden" r.

Definition le_orden (a b : row) : Prop := (orden a <= orden b)%Z.

Lemma insert_sorted_SS r l :
  StronglySorted le_orden l -> StronglySorted le_orden (insert_sorted "mes_orden" r l).
Proof.
  induction 1 as [| x l Hl IH Hx]; simpl.
  - repeat constructor.
  - destruct (clave "mes_orden" r <=? clave "mes_orden" x)%Z eqn:E.
    + apply Z.leb_le in E. constructor.
      * constructor; assumption.
      * constructor; [exact E |].
        rewrite Forall_forall in *. intros y Hy. specialize (Hx y Hy).
        unfold le_orden, orden in *. lia.
    + apply Z.leb_gt in E. constructor; [exact IH |].
      rewrite Forall_forall in *. intros y Hy.
      apply RowFacts.In_insert_sorted in Hy. destruct Hy as [-> | Hy].
      * unfold le_orden, orden. lia.
      * apply Hx. exact Hy.
Qed.

Lemma sort_rows_SS l : StronglySorted le_orden (sort_rows "mes_orden" l).
Proof.
  induction l as [| r l IH]; simpl; [constructor | apply insert_sorted_SS; exact IH].
Qed.

Lemma sort_rows_id l : StronglySorted le_orden l -> sort_rows "mes_orden" l = l.
Proof.
  induction 1 as [| x l Hl IH Hx]; simpl; [reflexivity |].
  rewrite IH. destruct l as [| y l']; [reflexivity |]. simpl.
  inversion Hx as [| ? ? Hxy _]; subst.
  unfold le_orden, orden in Hxy. apply Z.leb_le in Hxy. rewrite Hxy. reflexivity.
Qed.

Lemma SS_map (f : row -> row) l :
  (forall x, orden (f x) = orden x) ->
  StronglySorted le_orden l -> StronglySorted le_orden (map f l).
Proof.
  intros Hf. induction 1 as [| x l Hl IH Hx]; simpl; constructor; [exact IH |].
  rewrite Forall_forall in *. intros y Hy. apply in_map_iff in Hy.
  destruct Hy as [z [<- Hz]]. unfold le_orden. rewrite !Hf. apply Hx. exact Hz.
Qed.

Lemma SS_filter (p : row -> bool) l :
  StronglySorted le_orden l -> StronglySorted le_orden (filter p l).
Proof.
  induction 1 as [| x l Hl IH Hx]; simpl; [constructor |].
  destruct (p x); [| exact IH]. constructor; [exact IH |].
  rewrite Forall_forall in *. intros y Hy. apply filter_In in Hy. apply Hx. tauto.
Qed.

Lemma SS_app l1 l2 :
  StronglySorted le_orden l1 -> StronglySorted le_orden l2 ->
  (forall a b, In a l1 -> In b l2 -> le_orden a b) ->
  StronglySorted le_orden (l1 ++ l2).
Proof.
  intros H1 H2 H. induction H1 as [| x l Hl IH Hx]; simpl; [exact H2 |].
  constructor.
  - apply IH. intros a b Ha Hb. apply H; [right; exact Ha | exact Hb].
  - rewrite Forall_forall in *. intros y Hy. apply in_app_or in Hy.
    destruct Hy as [Hy | Hy]; [apply Hx; exact Hy | apply H; [left; reflexivity | exact Hy]].
Qed.

Lemma orden_set_neq r c v :
  String.eqb c "mes_orden" = false -> orden (set r c v) = orden r.
Proof.
  intros H. unfold orden, clave. rewrite RowFacts.get_set_neq by exact H. reflexivity.
Qed.

(** The rank that [_preparar_datos_base] gives a month name. *)
Definition rango (v : option cell) : Z :=
  match v with
  | Some (CStr x) =>
      match index x MESES_ORDEN with Some i => i | None => 99%Z end
  | _ => 99%Z
  end.

Lemma meses_ordenados parse df :
  StronglySorted le_orden (rows (tabla_meses parse df))
  /\ forall r, In r (rows (tabla_meses parse df)) ->
       get r "mes_orden" = Some (CInt (rango (get r "mes"))).
Proof.
  split.
  - unfold tabla_meses, _calcular_indices_meses.
    rewrite !RowFacts.rows_assign.
    repeat (apply SS_map; [intros x; apply orden_set_neq; reflexivity |]).
    unfold _preparar_datos_base. apply sort_rows_SS.
  - intros r H. unfold tabla_meses, _calcular_indices_meses in H.
    invert_rows H. unfold _preparar_datos_base in H.
    apply In_rows_sort in H. invert_rows H.
    peel. reflexivity.
Qed.

Lemma rango_trimestre t v :
  In t TRIMESTRES -> isin v (meses (snd t)) = true ->
  (3 * fst t - 3 <= rango v <= 3 * fst t - 1)%Z.
Proof.
  intros Ht Hv. destruct v as [[x | n | x] |]; try discriminate.
  unfold TRIMESTRES in Ht. simpl in Ht.
  repeat (destruct Ht as [Ht | Ht];
          [ subst t; cbn [isin snd meses mem existsb] in Hv;
            repeat (apply orb_prop in Hv; destruct Hv as [Hv | Hv];
                    [ apply String.eqb_eq in Hv; subst x; vm_compute;
                      split; discriminate | ]);
            discriminate | ]).
  contradiction.
Qed.

Section Bloques.

Variable dm : DataFrame.
Hypothesis dm_sorted : StronglySorted le_orden (rows dm).
Hypothesis dm_rango :
  forall r, In r (rows dm) -> get r "mes_orden" = Some (CInt (rango (get r "mes"))).

Lemma orden_mes t r :
  In t TRIMESTRES -> In r (rows (df_trim dm t)) ->
  (3 * fst t - 3 <= orden r <= 3 * fst t - 1)%Z.
Proof.
  intros Ht Hr. apply (proj1 (filter_In _ r (rows dm))) in Hr.
  destruct Hr as [Hr Hi]. unfold orden, clave. rewrite (dm_rango r Hr).
  apply rango_trimestre; assumption.
Qed.

Lemma orden_resumen t : orden (resumen_trimestre dm t) = (fst t * 3)%Z.
Proof. reflexivity. Qed.

Lemma orden_bloque t r :
  In t TRIMESTRES -> In r (filas_trimestre dm t) ->
  (3 * fst t - 3 <= orden r <= 3 * fst t)%Z.
Proof.
  intros Ht Hr. rewrite filas_trimestre_eq in Hr. apply in_app_or in Hr.
  destruct Hr as [Hr | Hr].
  - pose proof (orden_mes t r Ht Hr). lia.
  - destruct (rows (df_trim dm t)); [destruct Hr |].
    destruct Hr as [<- | []]. rewrite orden_resumen.
    unfold TRIMESTRES in Ht. simpl in Ht.
    repeat (destruct Ht as [Ht | Ht]; [subst t; simpl; lia |]). contradiction.
Qed.

Lemma bloque_sorted t :
  In t TRIMESTRES -> StronglySorted le_orden (filas_trimestre dm t).
Proof.
  intros Ht. rewrite filas_trimestre_eq. apply SS_app.
  - apply SS_filter. exact dm_sorted.
  - destruct (rows (df_trim dm t)); repeat constructor.
  - intros a b Ha Hb. destruct (rows (df_trim dm t)) eqn:E; [destruct Ha |].
    destruct Hb as [<- | []]. rewrite <- E in Ha.
    pose proof (orden_mes t a Ht Ha). unfold le_orden. rewrite orden_resumen. lia.
Qed.

Lemma flat_map_sorted (ts : list (Z * Trimestre)) :
  (forall t, In t ts -> In t TRIMESTRES) ->
  StronglySorted (fun t t' => (fst t < fst t')%Z) ts ->
  StronglySorted le_orden (flat_map (filas_trimestre dm) ts).
Proof.
  intros Hin. induction 1 as [| t ts Hs IH Ht]; simpl; [constructor |].
  apply SS_app.
  - apply bloque_sorted. apply Hin. left. reflexivity.
  - apply IH. intros t' Ht'. apply Hin. right. exact Ht'.
  - intros a b Ha Hb. apply in_flat_map in Hb. destruct Hb as [t' [Ht' Hb]].
    rewrite Forall_forall in Ht. specialize (Ht t' Ht').
    apply orden_bloque in Ha; [| apply Hin; left; reflexivity].
    apply orden_bloque in Hb; [| apply Hin; right; exact Ht'].
    unfold le_orden. lia.
Qed.

Lemma filas_resultado_sorted : StronglySorted le_orden (filas_resultado dm).
Proof.
  unfold filas_resultado. apply SS_app.
  - apply flat_map_sorted; [auto |].
    unfold TRIMESTRES.
    repeat (constructor; [| repeat (constructor; [simpl; lia |]); constructor]).
    constructor.
  - repeat constructor.
  - intros a b Ha Hb. destruct Hb as [<- | []].
    apply in_flat_map in Ha. destruct Ha as [t [Ht Ha]].
    pose proof (orden_bloque t a Ht Ha) as Hb.
    assert (fst t <= 4)%Z.
    { unfold TRIMESTRES in Ht. simpl in Ht.
      repeat (destruct Ht as [Ht | Ht]; [subst t; simpl; lia |]). contradiction. }
    unfold le_orden. change (orden (fila_anual dm)) with 99%Z. lia.
Qed.

End Bloques.


Lemma filter_todos (p : row -> bool) l :
  (forall x, In x l -> p x = true) -> filter p l = l.
Proof.
  induction l as [| x l IH]; simpl; intros H; [reflexivity |].
  rewrite (H x (or_introl eq_refl)). f_equal. apply IH. intros y Hy. apply H. right. exact Hy.
Qed.

Lemma filter_flat_map {A : Type} (p : row -> bool) (f : A -> list row) l :
  filter p (flat_map f l) = flat_map (fun t => filter p (f t)) l.
Proof.
  induction l as [| t l IH]; simpl; [reflexivity |].
  rewrite filter_app, IH. reflexivity.
Qed.


Section Estructura.

Variable dm : DataFrame.
Hypothesis dm_mes : forall r, In r (rows dm) -> es_mes r = true.

Lemma meses_bloque t : filter es_mes (filas_trimestre dm t) = rows (df_trim dm t).
Proof.
  rewrite filas_trimestre_eq, filter_app.
  rewrite filter_todos.
  - destruct (rows (df_trim dm t)); simpl; [reflexivity |].
    change (es_mes (resumen_trimestre dm t)) with false. simpl.
    rewrite app_nil_r. reflexivity.
  - intros x Hx. apply dm_mes. apply (proj1 (filter_In _ x (rows dm))) in Hx. tauto.
Qed.

Lemma meses_resultado :
  filter es_mes (filas_resultado dm) = flat_map (fun t => rows (df_trim dm t)) TRIMESTRES.
Proof.
  unfold filas_resultado. rewrite filter_app, filter_flat_map.
  change (filter es_mes [fila_anual dm]) with (@nil row). rewrite app_nil_r.
  apply flat_map_ext. intros t. apply meses_bloque.
Qed.


End Estructura.


(** Scenario A: two injuries, ten lost days, 16000 hours in January. *)
Definition fila_enero : row :=
  [ ("Mes", CStr "Enero"); ("Num_Trabajadores", CNum 100);
    ("Horas_Hombre_Mes", CNum 16000);
    ("Acc_Baja", CNum 1); ("Acc_Sin_Baja", CNum 1);
    ("Enf_Ocupacionales", CNum 0); ("Dias_Perdidos", CNum 10) ].

Definition tabla_enero : DataFrame :=
  {| columns := map fst fila_enero; rows := [fila_enero] |}.

(** The two tables of a successful run. *)
Definition tablas (res : result (DataFrame * DataFrame)) : DataFrame * DataFrame :=
  match res with
  | Ok p => p
  | Raise _ => ({| columns := []; rows := [] |}, {| columns := []; rows := [] |})
  end.

Definition reporte_enero : DataFrame :=
  Eval vm_compute in fst (tablas (snd (procesar sin_parser init tabla_enero))).

Definition charts_enero : DataFrame :=
  Eval vm_compute in snd (tablas (snd (procesar sin_parser init tabla_enero))).

Definition mes_enero : row := Eval vm_compute in List.hd [] (rows reporte_enero).

(** C5.  Every month row that [procesar] shows is a row of the monthly
    table, and on every row of the monthly table
    total injuries = accidents with leave + accidents without leave +
    illnesses, IF = [_safe_divide (total injuries * K) hours],
    IG = [_safe_divide (lost days * K) hours] and
    TR = [_safe_divide (lost days) (total injuries)] with K = 16,666.67.
    With 2 injuries, 10 lost days and 16000 hours: IF = 2.08333375 and
    IG = 10.416668749999999, which are 2.083 and 10.417 to three
    decimals, and TR = 5.0. *)
Theorem indices_mensuales parse self df rep ch :
  snd (procesar parse self df) = Ok (rep, ch) ->
  (forall r, In r (rows rep) -> tipo_es "mes" r = true ->
     In r (rows ch) /\ In r (rows (tabla_meses parse df)))
  /\ (forall r, In r (rows (tabla_meses parse df)) ->
       get r "total_lesiones" =
         Some (CNum (num r "acc_baja" + num r "acc_sin_baja"
                     + num r "enf_ocupacionales"))
       /\ get r "total_horas" =
         Some (CNum (if 0 <? num r "horas_hombre_mes" then num r "horas_hombre_mes"
                     else num r "num_trabajadores" * 173.33 + num r "horas_extras"))
       /\ get r "IF" =
         Some (CNum (_safe_divide (num r "total_lesiones" * 16666.67)
                                  (num r "total_horas")))
       /\ get r "IG" =
         Some (CNum (_safe_divide (num r "dias_perdidos" * 16666.67)
                                  (num r "total_horas")))
       /\ get r "TR" =
         Some (CNum (_safe_divide (num r "dias_perdidos") (num r "total_lesiones")))
       /\ get r "constante_k" = Some (CNum 16666.67))
  /\ _safe_divide (2 * 16666.67) 16000 = 2.08333375
  /\ _safe_divide (10 * 16666.67) 16000 = 10.416668749999999
  /\ _safe_divide 10 2 = 5
  /\ (2.0825 <=? _safe_divide (2 * 16666.67) 16000) = true
  /\ (_safe_divide (2 * 16666.67) 16000 <? 2.0835) = true
  /\ (10.4165 <=? _safe_divide (10 * 16666.67) 16000) = true
  /\ (_safe_divide (10 * 16666.67) 16000 <? 10.4175) = true.
Proof.
  intros H.
  destruct (procesar_tablas parse self df H) as [Hrep Hch].
  split.
  { intros r Hr Ht. split.
    - rewrite Hch. apply filter_In. split; [exact Hr | exact Ht].
    - rewrite Hrep in Hr. apply RowFacts.In_sort_rows, In_filas_resultado in Hr.
      destruct Hr as [[t [_ Hr]] | [[t [_ [_ ->]]] | ->]].
      + apply (proj1 (filter_In _ r _)) in Hr. tauto.
      + unfold resumen_trimestre in Ht. rewrite tipo_resumen in Ht. discriminate Ht.
      + unfold fila_anual in Ht. rewrite tipo_resumen in Ht. discriminate Ht. }
  split.
  { intros r Hm.
    destruct (fila_mes parse df r Hm) as (A1 & A2 & A3 & A4 & A5 & _ & A7).
    repeat (split; [assumption |]). assumption. }
  repeat (split; [vm_compute; reflexivity |]).
  vm_compute; reflexivity.
Qed.

Lemma indices_mensuales_witness :
  snd (procesar sin_parser init tabla_enero) = Ok (reporte_enero, charts_enero)
  /\ In mes_enero (rows reporte_enero)
  /\ tipo_es "mes" mes_enero = true
  /\ num mes_enero "total_lesiones" = 2
  /\ num mes_enero "dias_perdidos" = 10
  /\ num mes_enero "total_horas" = 16000
  /\ get mes_enero "IF" = Some (CNum 2.08333375)
  /\ get mes_enero "IG" = Some (CNum 10.416668749999999)
  /\ get mes_enero "TR" = Some (CNum 5).
Proof.
  assert (H1 : snd (procesar sin_parser init tabla_enero) = Ok (reporte_enero, charts_enero))
    by (vm_compute; reflexivity).
  assert (H2 : In mes_enero (rows reporte_enero)) by (left; reflexivity).
  assert (H3 : tipo_es "mes" mes_enero = true) by reflexivity.
  destruct (indices_mensuales sin_parser init tabla_enero reporte_enero charts_enero H1)
    as (A & B & _).
  destruct (A mes_enero H2 H3) as [_ Hm].
  destruct (B mes_enero Hm) as (_ & _ & A3 & A4 & A5 & _).
  split; [exact H1 |]. split; [exact H2 |]. split; [exact H3 |].
  split; [vm_compute; reflexivity |].
  split; [vm_compute; reflexivity |].
  split; [vm_compute; reflexivity |].
  split; [rewrite A3; vm_compute; reflexivity |].
  split; [rewrite A4; vm_compute; reflexivity |].
  rewrite A5; vm_compute; reflexivity.
Defined.




End ReactiveProps.

(* ================================================================== *)
(** * Schema errors and repeated runs                                *)
(* ================================================================== *)

Module EngineProps.

Import Py TextFacts.
Open Scope string_scope.














(** C8.  The tables that [procesar] returns depend on the input table
    alone (and, for the proactive engine, on the configured target): a
    second call on the same table, made on the engine as the first call
    left it, returns the same tables, as does a call on an engine that
    holds other tables from earlier runs.  This holds for both engines. *)
Theorem procesar_idempotente parse (sr sr' : ReactiveEngine.ReactiveAnalyzer)
    (sp sp' : ProactiveEngine.ProactiveCalculator) (df : DataFrame) :
  snd (ReactiveEngine.procesar parse (fst (ReactiveEngine.procesar parse sr df)) df)
    = snd (ReactiveEngine.procesar parse sr df)
  /\ snd (ReactiveEngine.procesar parse sr' df)
       = snd (ReactiveEngine.procesar parse sr df)
  /\ ProactiveEngine.meta (fst (ProactiveEngine.procesar parse sp df))
       = ProactiveEngine.meta sp
  /\ snd (ProactiveEngine.procesar parse
            (fst (ProactiveEngine.procesar parse sp df)) df)
       = snd (ProactiveEngine.procesar parse sp df)
  /\ snd (ProactiveEngine.procesar parse
            {| ProactiveEngine.meta := ProactiveEngine.meta sp;
               ProactiveEngine.df_resultado := ProactiveEngine.df_resultado sp' |}
            df)
       = snd (ProactiveEngine.procesar parse sp df).
Proof.
  assert (A : forall s s', snd (ReactiveEngine.procesar parse s df)
                           = snd (ReactiveEngine.procesar parse s' df)).
  { intros s s'. unfold ReactiveEngine.procesar.
    destruct (ReactiveEngine._validar_columnas _); reflexivity. }
  assert (B : forall s s', ProactiveEngine.meta s = ProactiveEngine.meta s' ->
                snd (ProactiveEngine.procesar parse s df)
                = snd (ProactiveEngine.procesar parse s' df)).
  { intros s s' E. unfold ProactiveEngine.procesar.
    destruct (ProactiveEngine._validar_columnas _); [| reflexivity].
    cbn [snd]. rewrite E. reflexivity. }
  assert (M : ProactiveEngine.meta (fst (ProactiveEngine.procesar parse sp df))
              = ProactiveEngine.meta sp).
  { unfold ProactiveEngine.procesar.
    destruct (ProactiveEngine._validar_columnas _); reflexivity. }
  split; [apply A |]. split; [apply A |]. split; [exact M |].
  split; [apply B; exact M | apply B; reflexivity].
Qed.

End EngineProps.

(* ================================================================== *)
(** * Validator                                                      *)
(* ================================================================== *)

Module ValidatorProps.

Import Py Validator TextFacts.
Open Scope string_scope.





(** A month of reactive data without the lost-days column. *)
Definition tabla_sin_dias : DataFrame :=
  {| columns := ["Mes"; "Horas"; "Lesiones"];
     rows := [[("Mes", CStr "Enero"); ("Horas", CNum 16000); ("Lesiones", CNum 2)]] |}.




(** What every result under construction satisfies: nothing attached
    yet, and valid exactly when no error was recorded. *)
Definition sin_adjuntos (res : ValidationResult) : Prop :=
  df_limpio res = None /\ resumen res = []
  /\ (es_valido res = true <-> errores res = []).

Lemma sin_adjuntos_nuevo : sin_adjuntos nuevo_resultado.
Proof. repeat split; reflexivity. Qed.

Lemma sin_adjuntos_error res c m :
  sin_adjuntos res -> sin_adjuntos (agregar_error res c m).
Proof.
  intros (A & B & C). unfold sin_adjuntos, agregar_error. cbn.
  split; [exact A |]. split; [exact B |].
  split; [discriminate |]. intros E. destruct (errores res); discriminate E.
Qed.

Lemma sin_adjuntos_warning res c m :
  sin_adjuntos res -> sin_adjuntos (agregar_warning res c m).
Proof. intros (A & B & C). unfold sin_adjuntos, agregar_warning. cbn. tauto. Qed.

Lemma fold_left_inv {A B : Type} (P : A -> Prop) (f : A -> B -> A) l a :
  (forall a b, P a -> P (f a b)) -> P a -> P (fold_left f l a).
Proof.
  intros H. revert a. induction l as [| b l IH]; simpl; intros a Ha; [exact Ha |].
  apply IH, H, Ha.
Qed.

Section Validacion.

Variable parse : string -> option float.

Lemma sin_adjuntos_reactivo df res :
  sin_adjuntos res -> sin_adjuntos (snd (_validar_reactivo parse df res)).
Proof.
  intros H. unfold _validar_reactivo.
  destruct (map _ (filter _ COLUMNAS_REACTIVO)) as [| x l].
  - match goal with
    | |- context [fold_left (paso_numerico parse) ?l ?a] =>
        assert (I : sin_adjuntos (snd (fold_left (paso_numerico parse) l a)))
    end.
    { apply (fold_left_inv (fun st => sin_adjuntos (snd st))); [| exact H].
      intros [d r] c Hr. unfold paso_numerico. cbn [snd] in *.
      destruct (0 <? _)%nat; [apply sin_adjuntos_warning |]; exact Hr. }
    destruct (fold_left (paso_numerico parse) _ _) as [d r]. cbn [snd] in *.
    match goal with
    | |- context [fold_left (paso_negativos d) ?l ?a] =>
        assert (J : sin_adjuntos (fold_left (paso_negativos d) l a))
    end.
    { apply fold_left_inv; [| exact I].
      intros r' c Hr. unfold paso_negativos.
      destruct (0 <? _)%nat; [apply sin_adjuntos_error |]; exact Hr. }
    destruct (0 <? _)%nat; [apply sin_adjuntos_warning |]; exact J.
  - cbn [snd]. apply sin_adjuntos_error. exact H.
Qed.

Lemma sin_adjuntos_proactivo df res :
  sin_adjuntos res -> sin_adjuntos (snd (_validar_proactivo parse df res)).
Proof.
  intros H. unfold _validar_proactivo.
  destruct (filter _ _) as [| x l].
  - apply (fold_left_inv (fun st => sin_adjuntos (snd st))); [| exact H].
    intros [d r] c Hr. unfold paso_par. cbn [snd] in *.
    destruct (_ && _); [apply sin_adjuntos_warning; exact Hr |].
    destruct (_ && _); [apply sin_adjuntos_warning |]; exact Hr.
  - cbn [snd]. apply sin_adjuntos_error. exact H.
Qed.

(** C10.  The result of [validar] is invalid exactly when an error was
    recorded; an invalid result carries no cleaned table and an empty
    summary, and a valid one carries the normalized table. *)
Theorem validar_adjunta_solo_si_valido (tipo_analisis : TipoAnalisis)
    (df : option DataFrame) :
  let res := validar parse tipo_analisis df in
  (es_valido res = false <-> errores res <> [])
  /\ (es_valido res = false -> df_limpio res = None /\ resumen res = [])
  /\ (errores res <> [] -> df_limpio res = None /\ resumen res = [])
  /\ (es_valido res = true -> exists d, df_limpio res = Some d).
Proof.
  assert (K : forall res, sin_adjuntos res ->
            (es_valido res = false <-> errores res <> [])).
  { intros res (_ & _ & C). destruct (es_valido res); split; intros X.
    - discriminate X.
    - exfalso. apply X. apply C. reflexivity.
    - intros E. apply C in E. discriminate E.
    - reflexivity. }
  assert (G : forall st : DataFrame * ValidationResult,
            sin_adjuntos (snd st) ->
            let res :=
              if es_valido (snd st)
              then {| es_valido := es_valido (snd st);
                      errores := errores (snd st);
                      warnings := warnings (snd st);
                      df_limpio := Some (fst st);
                      resumen := _generar_resumen tipo_analisis (fst st) |}
              else snd st in
            (es_valido res = false <-> errores res <> [])
            /\ (es_valido res = false -> df_limpio res = None /\ resumen res = [])
            /\ (es_valido res = true -> exists d, df_limpio res = Some d)).
  { intros [d r] I. cbn [fst snd] in *. pose proof (K r I) as Kr.
    destruct I as (A & B & C).
    destruct (es_valido r) eqn:V; cbn [es_valido errores df_limpio resumen].
    - split; [| split].
      + split; [discriminate |]. intros X. apply Kr in X. discriminate X.
      + discriminate.
      + intros _. eexists. reflexivity.
    - rewrite V. split; [exact Kr |]. split; [tauto | discriminate]. }
  assert (F : forall res : ValidationResult,
            (es_valido res = false <-> errores res <> [])
            /\ (es_valido res = false -> df_limpio res = None /\ resumen res = [])
            /\ (es_valido res = true -> exists d, df_limpio res = Some d) ->
            (es_valido res = false <-> errores res <> [])
            /\ (es_valido res = false -> df_limpio res = None /\ resumen res = [])
            /\ (errores res <> [] -> df_limpio res = None /\ resumen res = [])
            /\ (es_valido res = true -> exists d, df_limpio res = Some d)).
  { intros res (A & B & C). repeat split; try tauto; apply B; tauto. }
  intros res. subst res. apply F. unfold validar.
  destruct df as [d |].
  - destruct (empty d).
    + cbn. repeat split; try discriminate; reflexivity.
    + remember (_normalizar_columnas tipo_analisis d) as dn.
      destruct tipo_analisis.
      * pose proof (sin_adjuntos_reactivo dn nuevo_resultado sin_adjuntos_nuevo) as I.
        destruct (_validar_reactivo parse dn nuevo_resultado) as [d1 r1] eqn:E.
        exact (G (d1, r1) I).
      * pose proof (sin_adjuntos_proactivo dn nuevo_resultado sin_adjuntos_nuevo) as I.
        destruct (_validar_proactivo parse dn nuevo_resultado) as [d1 r1] eqn:E.
        exact (G (d1, r1) I).
      * pose proof (sin_adjuntos_reactivo dn nuevo_resultado sin_adjuntos_nuevo) as I.
        destruct (_validar_reactivo parse dn nuevo_resultado) as [d1 r1] eqn:E.
        cbn [snd] in I.
        destruct (es_valido r1) eqn:V.
        -- pose proof (sin_adjuntos_proactivo d1 r1 I) as J.
           destruct (_validar_proactivo parse d1 r1) as [d2 r2] eqn:E2.
           exact (G (d2, r2) J).
        -- pose proof (G (d1, r1) I) as X. cbn [fst snd] in X.
           rewrite V in X. rewrite V. exact X.
  - cbn. repeat split; try discriminate; reflexivity.
Qed.

End Validacion.

Lemma validar_adjunta_solo_si_valido_witness :
  es_valido (validar sin_parser REACTIVO (Some tabla_sin_dias)) = false
  /\ df_limpio (validar sin_parser REACTIVO (Some tabla_sin_dias)) = None
  /\ resumen (validar sin_parser REACTIVO (Some tabla_sin_dias)) = [].
Proof.
  assert (H : es_valido (validar sin_parser REACTIVO (Some tabla_sin_dias)) = false)
    by reflexivity.
  destruct (validar_adjunta_solo_si_valido sin_parser REACTIVO (Some tabla_sin_dias))
    as (_ & A & _).
  split; [exact H |]. exact (A H).
Defined.

End ValidatorProps.

(* ================================================================== *)
(** * Further facts about binary64 arithmetic                        *)
(* ================================================================== *)

Module NumericFacts.

Import Py SafeArithmetic FloatFacts.
Open Scope float_scope.

Lemma safe_divide_finito x d :
  isna (_safe_divide x d) = false /\ isinf (_safe_divide x d) = false.
Proof.
  unfold _safe_divide.
  destruct ((d =? 0) || isna d); [split; reflexivity |]. cbv zeta.
  destruct (isna (x / d)) eqn:E1; simpl; [split; reflexivity |].
  destruct (isinf (x / d)) eqn:E2; [split; reflexivity | split; assumption].
Qed.

Lemma indicador_finito n d :
  isna (ProactiveEngine._calcular_indicador n d) = false
  /\ isinf (ProactiveEngine._calcular_indicador n d) = false
  /\ (ProactiveEngine._calcular_indicador n d <=? 100) = true.
Proof.
  unfold ProactiveEngine._calcular_indicador.
  destruct ((d =? 0) || isna d); [repeat split; reflexivity |]. cbv zeta.
  destruct (isna (n / d * 100)) eqn:Nr; simpl; [repeat split; reflexivity |].
  destruct (isinf (n / d * 100)) eqn:Ir; [repeat split; reflexivity |].
  unfold min. destruct (100 <? n / d * 100) eqn:L; [repeat split; reflexivity |].
  split; [exact Nr |]. split; [exact Ir |].
  apply not_ltb_leb; [exact Nr | reflexivity | exact L].
Qed.

(** Equal, or zeros that differ in sign only. *)
Definition casi (x y : float) : Prop :=
  x = y \/ ((x =? 0) = true /\ (y =? 0) = true).

Definition sf_casi (a b : spec_float) : Prop :=
  a = b \/ (sf_is_zero a = true /\ sf_is_zero b = true).

Lemma casi_sf x y : sf_casi (Prim2SF x) (Prim2SF y) -> casi x y.
Proof.
  intros [E | [A B]].
  - left. apply Prim2SF_inj. exact E.
  - right. rewrite !eqb0_zero. auto.
Qed.

Lemma sf_casi_refl a : sf_casi a a.
Proof. left. reflexivity. Qed.

Lemma SFadd_cero a : sf_casi (SF64add (S754_zero false) a) a.
Proof.
  destruct a as [s | s | | s m e]; try (left; reflexivity).
  destruct s; [right; split; reflexivity | left; reflexivity].
Qed.

Lemma SFadd_casi a a' b : sf_casi a a' -> sf_casi (SF64add a b) (SF64add a' b).
Proof.
  intros [-> | [A B]]; [left; reflexivity |].
  destruct a as [s | s | | s m e]; try discriminate.
  destruct a' as [s' | s' | | s' m' e']; try discriminate.
  destruct b as [sb | sb | | sb mb eb]; try (left; reflexivity).
  right. destruct s, s', sb; split; reflexivity.
Qed.

Lemma SFdiv_casi a a' c : sf_casi a a' -> sf_casi (SF64div a c) (SF64div a' c).
Proof.
  intros [-> | [A B]]; [left; reflexivity |].
  destruct a as [s | s | | s m e]; try discriminate.
  destruct a' as [s' | s' | | s' m' e']; try discriminate.
  destruct c as [sc | sc | | sc mc ec]; try (left; reflexivity);
    right; split; reflexivity.
Qed.

Lemma add_cero x : casi (0 + x) x.
Proof. apply casi_sf. rewrite add_spec. apply SFadd_cero. Qed.

Lemma leb_not_ltb x y : (x <=? y) = true -> (y <? x) = false.
Proof.
  rewrite FloatAxioms.ltb_spec, FloatAxioms.leb_spec. unfold SFltb, SFleb.
  destruct (SFcompare (Prim2SF x) (Prim2SF y)) as [c |] eqn:E; [| discriminate].
  rewrite (SFcompare_antisym _ _ _ E). destruct c; simpl; congruence.
Qed.

Lemma leb_nan_r x y : is_nan y = true -> (x <=? y) = false.
Proof.
  intros H. apply is_nan_true in H.
  rewrite FloatAxioms.leb_spec, H. unfold SFleb.
  destruct (Prim2SF x) as [s | s | | s m e]; reflexivity.
Qed.

Lemma ltb_nan_l x y : is_nan x = true -> (x <? y) = false.
Proof.
  intros H. apply is_nan_true in H.
  rewrite FloatAxioms.ltb_spec, H. reflexivity.
Qed.



End NumericFacts.

(* ================================================================== *)
(** * Proactive engine: invariants of the result table               *)
(* ================================================================== *)

Module TableFacts.

Import Py RowFacts.
Open Scope string_scope.

Lemma set_get_id r c v : get r c = Some v -> set r c v = r.
Proof.
  induction r as [| [k w] r IH]; simpl; [discriminate |].
  destruct (String.eqb k c) eqn:E.
  - intros H. injection H as ->. reflexivity.
  - intros H. rewrite IH by exact H. reflexivity.
Qed.

Lemma mem_app_r c l l' : mem c l' = true -> mem c (l ++ l') = true.
Proof. unfold mem. rewrite existsb_app. intros ->. apply orb_true_r. Qed.

Lemma mem_app_l c l l' : mem c l = true -> mem c (l ++ l') = true.
Proof. unfold mem. rewrite existsb_app. intros ->. reflexivity. Qed.

Lemma mem_assign_eq c f df : mem c (columns (assign c f df)) = true.
Proof.
  simpl. destruct (mem c (columns df)) eqn:E; [exact E |].
  apply mem_app_r. simpl. rewrite String.eqb_refl. reflexivity.
Qed.

Lemma mem_assign c c' f df :
  mem c (columns df) = true -> mem c (columns (assign c' f df)) = true.
Proof.
  intros H. simpl. destruct (mem c' (columns df)); [exact H |].
  apply mem_app_l. exact H.
Qed.

Lemma columns_assign_mem c f df :
  mem c (columns df) = true -> columns (assign c f df) = columns df.
Proof. intros H. simpl. rewrite H. reflexivity. Qed.

Lemma map_id_in {A : Type} (f : A -> A) l :
  (forall x, In x l -> f x = x) -> map f l = l.
Proof.
  induction l as [| x l IH]; simpl; intros H; [reflexivity |].
  rewrite (H x (or_introl eq_refl)). f_equal. apply IH.
  intros y Hy. apply H. right. exact Hy.
Qed.

Lemma filter_map_length {A B : Type} (p : B -> bool) (f : A -> B) l :
  List.length (filter p (map f l)) = List.length (filter (fun x => p (f x)) l).
Proof.
  induction l as [| x l IH]; simpl; [reflexivity |].
  destruct (p (f x)); simpl; rewrite IH; reflexivity.
Qed.

Lemma filter_disjuntos {A : Type} (p q : A -> bool) l :
  (forall x, p x = true -> q x = false) ->
  (List.length (filter p l) + List.length (filter q l) <= List.length l)%nat.
Proof.
  intros H. induction l as [| x l IH]; simpl; [lia |].
  destruct (p x) eqn:P.
  - rewrite (H x P). simpl. lia.
  - destruct (q x); simpl; lia.
Qed.

End TableFacts.

Module ProactiveInvariants.

Import Py SafeArithmetic ProactiveEngine FloatFacts RowFacts NumericFacts TableFacts.
Open Scope string_scope.
Open Scope float_scope.

(** What [procesar] leaves in each row of its table. *)
Lemma fila_salida parse self df out r :
  snd (procesar parse self df) = Ok out -> In r (rows out) ->
  (forall c cfg, In (c, cfg) INDICADORES ->
     get r c = Some (CNum (_calcular_indicador (valor r (col_numerador cfg))
                                               (valor r (col_denominador cfg)))))
  /\ valor r "opas_efectivo" = num r "opas_real" * num r "opas_personas_conf"
  /\ valor r "opas_programado" = num r "opas_prog" * num r "opas_personas_prev"
  /\ valor r "dps_efectivo" = num r "dps_real" * num r "dps_asistentes"
  /\ valor r "dps_programado" = num r "dps_plan" * num r "dps_previstos"
  /\ get r "IG_TOTAL" = Some (CNum (ProactiveProps.suma_ponderada (num r) / 22))
  /\ get r "Meta" = Some (CNum (meta self))
  /\ get r "Estado" =
       Some (CStr (if meta self <=? num r "IG_TOTAL" then "CUMPLE" else "NO CUMPLE")).
Proof.
  unfold procesar. destruct (_validar_columnas _); cbn [snd]; intros H; [| discriminate].
  injection H as <-. intros H.
  unfold INDICADORES in H. cbn [fold_left calcular_columna] in H.
  invert_rows H. cbn [col_numerador col_denominador] in *.
  assert (G' : get r "IG_TOTAL" = Some (CNum (ProactiveProps.suma_ponderada (num r) / 22))).
  { unfold ProactiveProps.suma_ponderada.
    rewrite E, E0, E1; row_simpl.
    assert (S : ProactiveProps.sin_texto r2 = true).
    { unfold ProactiveProps.sin_texto, INDICADORES; cbn [forallb fst snd peso].
      peel. reflexivity. }
    rewrite (proj2 (ProactiveProps.ig_total_fila r2 S)).
    unfold ProactiveProps.suma_ponderada. peel. reflexivity. }
  assert (M : get r "Meta" = Some (CNum (meta self))).
  { rewrite E; row_simpl. rewrite E0; row_simpl. reflexivity. }
  assert (S : get r "Estado" =
       Some (CStr (if meta self <=? num r "IG_TOTAL" then "CUMPLE" else "NO CUMPLE"))).
  { rewrite E at 1; row_simpl.
    replace (num r "IG_TOTAL") with (num r0 "IG_TOTAL"); [reflexivity |].
    rewrite E; row_simpl. reflexivity. }
  unfold _calcular_columnas_compuestas in H. invert_rows H.
  split.
  { intros c cfg Hin. unfold INDICADORES in Hin. simpl in Hin.
    repeat (destruct Hin as [Hin | Hin];
            [ injection Hin as <- <-; cbn [col_numerador col_denominador];
              peel; reflexivity | ]).
    contradiction. }
  split; [peel; reflexivity |].
  split; [peel; reflexivity |].
  split; [peel; reflexivity |].
  split; [peel; reflexivity |].
  split; [exact G' |]. split; [exact M | exact S].
Qed.

Lemma indicador_fila_acotado parse self df out r :
  snd (procesar parse self df) = Ok out -> In r (rows out) ->
  forall c, In c (map fst INDICADORES) ->
    is_nan (num r c) = false /\ (num r c <=? 100) = true.
Proof.
  intros Hout Hin c Hc.
  destruct (fila_salida parse self df out r Hout Hin) as [F _].
  apply in_map_iff in Hc. destruct Hc as [[c' cfg] [<- Hc]]. simpl.
  unfold num. rewrite (F c' cfg Hc). cbn [num_of].
  destruct (indicador_finito (valor r (col_numerador cfg))
                             (valor r (col_denominador cfg))) as (N & _ & L).
  split; assumption.
Qed.

(** X1.  Whatever the table holds (negative counts, text, blanks, huge
    numbers), each of the eight indicator columns of every row that
    [procesar] returns holds a number that is neither NaN nor infinite
    and is at most 100. *)
Theorem indicadores_finitos parse self df out r :
  snd (procesar parse self df) = Ok out -> In r (rows out) ->
  forall c, In c (map fst INDICADORES) ->
    exists x, get r c = Some (CNum x)
      /\ isna x = false /\ isinf x = false /\ (x <=? 100) = true.
Proof.
  intros Hout Hin c Hc.
  destruct (fila_salida parse self df out r Hout Hin) as [F _].
  apply in_map_iff in Hc. destruct Hc as [[c' cfg] [<- Hc]]. simpl.
  eexists. split; [apply (F c' cfg Hc) |]. apply indicador_finito.
Qed.

Lemma indicadores_finitos_witness :
  snd (procesar sin_parser (init None) ProactiveProps.tabla_desborde)
    = Ok ProactiveProps.desborde_salida
  /\ In ProactiveProps.desborde_fila_salida (rows ProactiveProps.desborde_salida)
  /\ exists x, get ProactiveProps.desborde_fila_salida "IART" = Some (CNum x)
        /\ isna x = false /\ isinf x = false /\ (x <=? 100) = true.
Proof.
  assert (H1 : snd (procesar sin_parser (init None) ProactiveProps.tabla_desborde)
               = Ok ProactiveProps.desborde_salida) by (vm_compute; reflexivity).
  assert (H2 : In ProactiveProps.desborde_fila_salida
                  (rows ProactiveProps.desborde_salida)) by (left; reflexivity).
  split; [exact H1 |]. split; [exact H2 |].
  apply (indicadores_finitos sin_parser (init None) ProactiveProps.tabla_desborde
           ProactiveProps.desborde_salida ProactiveProps.desborde_fila_salida H1 H2).
  left. reflexivity.
Defined.

(** X2.  A calculator built with target [m] works with [m], except that
    no target and a target of zero both give 80: the target in use is
    never zero.  Every row of the table that [procesar] returns carries
    that target in [Meta], and its [Estado] is what
    [SSOCalculator.evaluar_cumplimiento] says of its IG_TOTAL: "CUMPLE"
    exactly when IG_TOTAL >= target, "NO CUMPLE" otherwise, also when
    IG_TOTAL is not a number.  The calculator keeps its target and stores
    the table. *)
Theorem estado_segun_meta parse m df out r :
  snd (procesar parse (init m) df) = Ok out -> In r (rows out) ->
  get r "Meta" = Some (CNum (meta (init m)))
  /\ (meta (init m) =? 0) = false
  /\ (forall x, m = Some x -> (x =? 0) = false -> meta (init m) = x)
  /\ (forall x, m = Some x -> (x =? 0) = true -> meta (init m) = 80)
  /\ (m = None -> meta (init m) = 80)
  /\ get r "Estado" =
       Some (CStr (Calculator.evaluar_cumplimiento (num r "IG_TOTAL") (meta (init m))))
  /\ (get r "Estado" = Some (CStr "CUMPLE")
       <-> (meta (init m) <=? num r "IG_TOTAL") = true)
  /\ (get r "Estado" = Some (CStr "NO CUMPLE")
       <-> (meta (init m) <=? num r "IG_TOTAL") = false)
  /\ (isna (num r "IG_TOTAL") = true -> get r "Estado" = Some (CStr "NO CUMPLE"))
  /\ fst (procesar parse (init m) df)
       = {| meta := meta (init m); df_resultado := Some out |}.
Proof.
  intros Hout Hin.
  destruct (fila_salida parse (init m) df out r Hout Hin)
    as (_ & _ & _ & _ & _ & _ & M & S).
  split; [exact M |].
  split.
  { unfold init; cbn [meta]. destruct m as [x |]; [| reflexivity].
    destruct (x =? 0) eqn:E; [reflexivity | exact E]. }
  split.
  { intros x -> E. unfold init; cbn [meta]. rewrite E. reflexivity. }
  split.
  { intros x -> E. unfold init; cbn [meta]. rewrite E. reflexivity. }
  split.
  { intros ->. reflexivity. }
  split; [exact S |].
  split.
  { rewrite S. destruct (meta (init m) <=? num r "IG_TOTAL");
      split; intros H; try reflexivity; discriminate H. }
  split.
  { rewrite S. destruct (meta (init m) <=? num r "IG_TOTAL");
      split; intros H; try reflexivity; discriminate H. }
  split.
  { intros N. rewrite S. rewrite (leb_nan_r _ _ N). reflexivity. }
  revert Hout. unfold procesar.
  destruct (_validar_columnas _); cbn [snd fst]; intros H; [| discriminate H].
  injection H as <-. reflexivity.
Qed.

Lemma estado_segun_meta_witness :
  snd (procesar sin_parser (init (Some 0)) ProactiveProps.ejemplo_tabla)
    = Ok ProactiveProps.ejemplo_salida
  /\ In ProactiveProps.ejemplo_fila_salida (rows ProactiveProps.ejemplo_salida)
  /\ get ProactiveProps.ejemplo_fila_salida "Meta" = Some (CNum 80)
  /\ get ProactiveProps.ejemplo_fila_salida "Estado" = Some (CStr "NO CUMPLE").
Proof.
  assert (H1 : snd (procesar sin_parser (init (Some 0)) ProactiveProps.ejemplo_tabla)
               = Ok ProactiveProps.ejemplo_salida) by (vm_compute; reflexivity).
  assert (H2 : In ProactiveProps.ejemplo_fila_salida
                  (rows ProactiveProps.ejemplo_salida)) by (left; reflexivity).
  destruct (estado_segun_meta sin_parser (Some 0) ProactiveProps.ejemplo_tabla
              ProactiveProps.ejemplo_salida ProactiveProps.ejemplo_fila_salida H1 H2)
    as (M & _ & _ & _ & _ & S & _).
  split; [exact H1 |]. split; [exact H2 |].
  split; [rewrite M; reflexivity |].
  rewrite S. vm_compute. reflexivity.
Defined.

(** The table of a successful run and its columns. *)
Lemma columnas_salida parse self df out :
  snd (procesar parse self df) = Ok out ->
  mem "IG_TOTAL" (columns out) = true
  /\ mem "Estado" (columns out) = true
  /\ forall c, In c (map fst INDICADORES) -> mem c (columns out) = true.
Proof.
  unfold procesar. destruct (_validar_columnas _); cbn [snd]; intros H; [| discriminate H].
  injection H as <-.
  unfold INDICADORES. cbn [fold_left calcular_columna map fst].
  split; [| split].
  - repeat first [apply mem_assign_eq | apply mem_assign].
  - apply mem_assign_eq.
  - intros c Hc. simpl in Hc.
    repeat (destruct Hc as [<- | Hc];
            [repeat first [apply mem_assign_eq | apply mem_assign] |]).
    contradiction.
Qed.

(** X3.  [SSOCalculator.agregar_estado_cumplimiento], given the table
    that [ProactiveCalculator.procesar] returned and the calculator's
    target, raises nothing and gives that table back unchanged: the two
    modules label every month alike. *)
Theorem estado_cumplimiento_coincide parse self df out :
  snd (procesar parse self df) = Ok out ->
  Calculator.agregar_estado_cumplimiento out (meta self) = Some out.
Proof.
  intros Hout.
  destruct (columnas_salida parse self df out Hout) as (C1 & C2 & _).
  unfold Calculator.agregar_estado_cumplimiento. rewrite C1.
  assert (T : forallb (fun r => match get r "IG_TOTAL" with
                                | Some (CStr _) => false
                                | _ => true
                                end) (rows out) = true).
  { apply forallb_forall. intros r Hr.
    destruct (fila_salida parse self df out r Hout Hr)
      as (_ & _ & _ & _ & _ & G & _).
    rewrite G. reflexivity. }
  rewrite T. cbn [andb]. f_equal.
  unfold assign. rewrite C2.
  rewrite (map_id_in (fun r => set r "Estado" _) (rows out)).
  - destruct out; reflexivity.
  - intros r Hr.
    destruct (fila_salida parse self df out r Hout Hr)
      as (_ & _ & _ & _ & _ & _ & _ & S).
    apply set_get_id. rewrite S. reflexivity.
Qed.

Lemma estado_cumplimiento_coincide_witness :
  snd (procesar sin_parser (init None) ProactiveProps.ejemplo_tabla)
    = Ok ProactiveProps.ejemplo_salida
  /\ Calculator.agregar_estado_cumplimiento ProactiveProps.ejemplo_salida 80
     = Some ProactiveProps.ejemplo_salida.
Proof.
  assert (H1 : snd (procesar sin_parser (init None) ProactiveProps.ejemplo_tabla)
               = Ok ProactiveProps.ejemplo_salida) by (vm_compute; reflexivity).
  split; [exact H1 |].
  exact (estado_cumplimiento_coincide sin_parser (init None)
           ProactiveProps.ejemplo_tabla ProactiveProps.ejemplo_salida H1).
Defined.




(** X5.  On every row that [ProactiveCalculator.procesar] returns,
    IG_TOTAL is what [SSOCalculator.calcular_ig_total] gives on the
    row's seven weighted indicators, up to the sign of a zero: the
    engine's loop starts its sum from 0, which turns a negative zero
    into a positive one and changes no other value. *)
Theorem ig_total_segun_calculadora parse self df out r :
  snd (procesar parse self df) = Ok out -> In r (rows out) ->
  exists x, get r "IG_TOTAL" = Some (CNum x)
    /\ casi x (Calculator.calcular_ig_total
                 (num r "IART") (num r "OPAS") (num r "IDPS") (num r "IDS")
                 (num r "IENTS") (num r "IOSEA") (num r "ICAI")).
Proof.
  intros Hout Hin.
  destruct (fila_salida parse self df out r Hout Hin)
    as (_ & _ & _ & _ & _ & G & _).
  eexists. split; [exact G |].
  change (Calculator.calcular_ig_total
            (num r "IART") (num r "OPAS") (num r "IDPS") (num r "IDS")
            (num r "IENTS") (num r "IOSEA") (num r "ICAI"))
    with ((5 * num r "IART" + 3 * num r "OPAS" + 2 * num r "IDPS"
           + 3 * num r "IDS" + 1 * num r "IENTS" + 4 * num r "IOSEA"
           + 4 * num r "ICAI") / 22).
  unfold ProactiveProps.suma_ponderada.
  apply casi_sf. rewrite !div_spec, !add_spec.
  apply SFdiv_casi. repeat apply SFadd_casi. apply SFadd_cero.
Qed.

Lemma ig_total_segun_calculadora_witness :
  snd (procesar sin_parser (init None) ProactiveProps.ejemplo_tabla)
    = Ok ProactiveProps.ejemplo_salida
  /\ In ProactiveProps.ejemplo_fila_salida (rows ProactiveProps.ejemplo_salida)
  /\ exists x, get ProactiveProps.ejemplo_fila_salida "IG_TOTAL" = Some (CNum x)
       /\ casi x (Calculator.calcular_ig_total 100 60 90 80 75 0 100).
Proof.
  assert (H1 : snd (procesar sin_parser (init None) ProactiveProps.ejemplo_tabla)
               = Ok ProactiveProps.ejemplo_salida) by (vm_compute; reflexivity).
  assert (H2 : In ProactiveProps.ejemplo_fila_salida
                  (rows ProactiveProps.ejemplo_salida)) by (left; reflexivity).
  split; [exact H1 |]. split; [exact H2 |].
  exact (ig_total_segun_calculadora sin_parser (init None)
           ProactiveProps.ejemplo_tabla ProactiveProps.ejemplo_salida
           ProactiveProps.ejemplo_fila_salida H1 H2).
Defined.

(** The row's state of compliance is the given one. *)
Definition estado_es (estado : string) (r : row) : bool :=
  match get r "Estado" with
  | Some (CStr s) => String.eqb s estado
  | _ => false
  end.

Lemma serie_max_acotada l :
  (forall x, In x l -> is_nan x = false /\ (x <=? 100) = true) -> l <> [] ->
  is_nan (serie_max l) = false /\ (serie_max l <=? 100) = true.
Proof.
  intros H Hne. unfold serie_max.
  assert (E : filter (fun x => negb (is_nan x)) l = l).
  { clear Hne. induction l as [| x l IH]; simpl; [reflexivity |].
    destruct (H x (or_introl eq_refl)) as [-> _]. simpl. f_equal.
    apply IH. intros y Hy. apply H. right. exact Hy. }
  rewrite E. destruct l as [| x vs]; [contradiction |].
  assert (Hx : is_nan x = false /\ (x <=? 100) = true) by (apply H; left; reflexivity).
  assert (Hvs : forall y, In y vs -> is_nan y = false /\ (y <=? 100) = true)
    by (intros y Hy; apply H; right; exact Hy).
  clear H E Hne. revert x Hx. induction vs as [| y vs IH]; intros x Hx; simpl.
  - exact Hx.
  - apply IH.
    + intros z Hz. apply Hvs. right. exact Hz.
    + destruct (x <? y); [apply Hvs; left; reflexivity | exact Hx].
Qed.

(** X6.  Before any run [obtener_estadisticas] has nothing to report.
    After a successful run it reports the calculator's target; its count
    of complying months is the number of rows whose [Estado] is
    "CUMPLE", and complying and non-complying months together are at
    most the rows of the table (a month whose IG_TOTAL is not a number
    is in neither count); all eight indicators are reported, and when
    the table has a row the reported maximum of each is a number of at
    most 100. *)
Theorem estadisticas_proactivas parse self df out :
  snd (procesar parse self df) = Ok out ->
  (forall m, obtener_estadisticas (init m) = None)
  /\ exists st,
       obtener_estadisticas (fst (procesar parse self df)) = Some st
       /\ stats_meta st = meta self
       /\ meses_cumplen st = List.length (filter (estado_es "CUMPLE") (rows out))
       /\ (meses_cumplen st + meses_no_cumplen st <= List.length (rows out))%nat
       /\ map fst (indicadores st) = map fst INDICADORES
       /\ (rows out <> [] ->
           forall c e, In (c, e) (indicadores st) ->
             isna (maximo e) = false /\ (maximo e <=? 100) = true).
Proof.
  intros Hout. split; [reflexivity |].
  assert (Hst : fst (procesar parse self df)
                = {| meta := meta self; df_resultado := Some out |}).
  { revert Hout. unfold procesar.
    destruct (_validar_columnas _); cbn [snd fst]; intros H; [| discriminate H].
    injection H as <-. reflexivity. }
  rewrite Hst. unfold obtener_estadisticas. cbn [df_resultado meta].
  eexists. split; [reflexivity |].
  cbn [stats_meta meses_cumplen meses_no_cumplen indicadores].
  destruct (columnas_salida parse self df out Hout) as (_ & _ & HC).
  assert (Hk : filter (fun codigo => mem codigo (columns out)) (map fst INDICADORES)
               = map fst INDICADORES).
  { apply forallb_filter_id. apply forallb_forall. exact HC. }
  split; [reflexivity |].
  split.
  { unfold cuenta_cumple, column_num. rewrite filter_map_length.
    f_equal. apply filter_ext_in. intros r Hr.
    destruct (fila_salida parse self df out r Hout Hr)
      as (_ & _ & _ & _ & _ & _ & _ & S).
    unfold estado_es. rewrite S.
    destruct (meta self <=? num r "IG_TOTAL"); reflexivity. }
  split.
  { unfold cuenta_cumple, column_num.
    rewrite <- (length_map (fun r => num r "IG_TOTAL") (rows out)).
    apply filter_disjuntos. intros x Hx. apply leb_not_ltb. exact Hx. }
  split.
  { rewrite Hk, map_map. cbn [fst]. apply map_id. }
  intros Hne c e Hin. rewrite Hk in Hin. apply in_map_iff in Hin.
  destruct Hin as [c' [Heq Hc']]. injection Heq as <- <-. cbn [maximo].
  apply serie_max_acotada.
  - intros x Hx. unfold column_num in Hx. apply in_map_iff in Hx.
    destruct Hx as [r [<- Hr]].
    apply (indicador_fila_acotado parse self df out r Hout Hr c' Hc').
  - unfold column_num. destruct (rows out); [contradiction | discriminate].
Qed.

Lemma estadisticas_proactivas_witness :
  snd (procesar sin_parser (init None) ProactiveProps.ejemplo_tabla)
    = Ok ProactiveProps.ejemplo_salida
  /\ exists st,
       obtener_estadisticas
         (fst (procesar sin_parser (init None) ProactiveProps.ejemplo_tabla)) = Some st
       /\ stats_meta st = 80
       /\ meses_cumplen st = 0%nat.
Proof.
  assert (H1 : snd (procesar sin_parser (init None) ProactiveProps.ejemplo_tabla)
               = Ok ProactiveProps.ejemplo_salida) by (vm_compute; reflexivity).
  split; [exact H1 |].
  destruct (estadisticas_proactivas sin_parser (init None)
              ProactiveProps.ejemplo_tabla ProactiveProps.ejemplo_salida H1)
    as [_ [st (E & M & C & _)]].
  exists st. split; [exact E |]. split; [exact M |].
  rewrite C. reflexivity.
Defined.

End ProactiveInvariants.

(* ================================================================== *)
(** * Reactive engine: invariants of the report                      *)
(* ================================================================== *)

Module ReactiveInvariants.

Import Py SafeArithmetic ReactiveEngine FloatFacts RowFacts NumericFacts TableFacts.
Import ReactiveProps.
Open Scope string_scope.
Open Scope float_scope.

Lemma columnas_insertar dm :
  columns (_insertar_resúmenes dm) = union_keys [] (filas_resultado dm).
Proof. reflexivity. Qed.

Lemma columnas_select p d : columns (select p d) = columns d.
Proof. reflexivity. Qed.

Lemma procesar_columnas parse self df rep ch :
  snd (procesar parse self df) = Ok (rep, ch) ->
  columns rep = union_keys [] (filas_resultado (tabla_meses parse df))
  /\ columns ch = columns rep
  /\ fst (procesar parse self df)
     = {| df_input := df_input self; df_reporte := Some rep; df_charts := Some ch |}.
Proof.
  unfold procesar. destruct (_validar_columnas _); cbn [snd fst]; intros H; [| discriminate H].
  injection H as <- <-.
  split; [apply columnas_insertar | split; [apply columnas_select | reflexivity]].
Qed.

(** The rows and columns of the two tables of a successful run. *)
Lemma tablas_salida parse self df rep ch :
  snd (procesar parse self df) = Ok (rep, ch) ->
  rows rep = filas_resultado (tabla_meses parse df)
  /\ rows ch = flat_map (fun t => rows (df_trim (tabla_meses parse df) t)) TRIMESTRES
  /\ columns rep = union_keys [] (filas_resultado (tabla_meses parse df))
  /\ columns ch = columns rep
  /\ fst (procesar parse self df)
     = {| df_input := df_input self; df_reporte := Some rep; df_charts := Some ch |}.
Proof.
  intros H. destruct (procesar_tablas parse self df H) as [Hrep Hch].
  pose proof (procesar_columnas parse self df rep ch H) as Hcols.
  destruct (meses_ordenados parse df) as [Hs Hk].
  assert (Hmes : forall r, In r (rows (tabla_meses parse df)) -> es_mes r = true).
  { intros r Hr. apply fila_mes in Hr. unfold es_mes.
    destruct Hr as (_ & _ & _ & _ & _ & -> & _). reflexivity. }
  revert Hrep Hch Hcols Hs Hk Hmes. generalize (tabla_meses parse df) as dm.
  intros dm Hrep Hch Hcols Hs Hk Hmes.
  pose proof (filas_resultado_sorted dm Hs Hk) as Hsorted.
  assert (E : rows rep = filas_resultado dm).
  { rewrite Hrep. apply sort_rows_id. exact Hsorted. }
  split; [exact E |].
  split; [rewrite Hch, E; apply meses_resultado; exact Hmes |].
  exact Hcols.
Qed.

(** X7.  In every row of the report (months, quarters and year) the
    three indices IF, IG and TR are numbers, never NaN and never
    infinite, whatever the input holds: a period without hours or
    without injuries gets 0.0. *)
Theorem indices_finitos parse self df rep ch r :
  snd (procesar parse self df) = Ok (rep, ch) -> In r (rows rep) ->
  forall c, In c ["IF"; "IG"; "TR"] ->
    exists x, get r c = Some (CNum x) /\ isna x = false /\ isinf x = false.
Proof.
  intros H Hr c Hc.
  destruct (tablas_salida parse self df rep ch H) as (E & _).
  rewrite E in Hr. apply In_filas_resultado in Hr.
  assert (S : forall p nombre tipo k orden,
            exists x, get (_crear_fila_resumen p nombre tipo k orden) c = Some (CNum x)
                      /\ isna x = false /\ isinf x = false).
  { intros p nombre tipo k orden. simpl in Hc.
    destruct Hc as [<- | [<- | [<- | []]]];
      (eexists; split; [reflexivity | apply safe_divide_finito]). }
  destruct Hr as [[t [_ Hr]] | [[t [_ [_ ->]]] | ->]].
  - apply (proj1 (filter_In _ r (rows (tabla_meses parse df)))) in Hr.
    destruct Hr as [Hr _]. apply fila_mes in Hr.
    destruct Hr as (_ & _ & F & G & T & _). simpl in Hc.
    destruct Hc as [<- | [<- | [<- | []]]];
      (eexists; split; [eassumption | apply safe_divide_finito]).
  - apply S.
  - apply S.
Qed.

Lemma indices_finitos_witness :
  snd (procesar sin_parser init tabla_enero) = Ok (reporte_enero, charts_enero)
  /\ In mes_enero (rows reporte_enero)
  /\ exists x, get mes_enero "TR" = Some (CNum x) /\ isna x = false /\ isinf x = false.
Proof.
  assert (H1 : snd (procesar sin_parser init tabla_enero)
               = Ok (reporte_enero, charts_enero)) by (vm_compute; reflexivity).
  assert (H2 : In mes_enero (rows reporte_enero)) by (left; reflexivity).
  split; [exact H1 |]. split; [exact H2 |].
  apply (indices_finitos sin_parser init tabla_enero reporte_enero charts_enero
           mes_enero H1 H2).
  right. right. left. reflexivity.
Defined.

(** X8.  The report always has its year row, and the year row's IF and
    IG are [SSOCalculator.calcular_if] and [SSOCalculator.calcular_ig]
    of the row's own totals: the engine's yearly constant is the
    calculator's factor of 200,000 hours. *)
Theorem indice_anual_calculadora parse self df rep ch :
  snd (procesar parse self df) = Ok (rep, ch) ->
  (exists a, In a (rows rep) /\ tipo_es "anual" a = true)
  /\ forall a, In a (rows rep) -> tipo_es "anual" a = true ->
       get a "IF" = Some (CNum (Calculator.calcular_if (num a "total_lesiones")
                                                       (num a "total_horas")))
       /\ get a "IG" = Some (CNum (Calculator.calcular_ig (num a "dias_perdidos")
                                                          (num a "total_horas"))).
Proof.
  intros H.
  destruct (tablas_salida parse self df rep ch H) as (E & _).
  split.
  { exists (fila_anual (tabla_meses parse df)). split; [| reflexivity].
    rewrite E. apply In_filas_resultado. right. right. reflexivity. }
  intros a Ha Ht. rewrite E in Ha. apply In_filas_resultado in Ha.
  destruct Ha as [[t [_ Ha]] | [[t [_ [_ ->]]] | ->]].
  - apply (proj1 (filter_In _ a (rows (tabla_meses parse df)))) in Ha.
    destruct Ha as [Ha _]. apply fila_mes in Ha.
    destruct Ha as (_ & _ & _ & _ & _ & T & _).
    unfold tipo_es in Ht. rewrite T in Ht. discriminate Ht.
  - unfold resumen_trimestre in Ht. rewrite tipo_resumen in Ht. discriminate Ht.
  - split; reflexivity.
Qed.

Lemma indice_anual_calculadora_witness :
  snd (procesar sin_parser init tabla_enero) = Ok (reporte_enero, charts_enero)
  /\ exists a, In a (rows reporte_enero) /\ tipo_es "anual" a = true.
Proof.
  assert (H1 : snd (procesar sin_parser init tabla_enero)
               = Ok (reporte_enero, charts_enero)) by (vm_compute; reflexivity).
  split; [exact H1 |].
  exact (proj1 (indice_anual_calculadora sin_parser init tabla_enero
                  reporte_enero charts_enero H1)).
Defined.

(** The columns that [pd.DataFrame(records)] gives hold every field of
    every record. *)
Lemma claves_acc (r : row) acc k :
  In k acc ->
  In k (fold_left (fun a kv => if mem (fst kv) a then a else (a ++ [fst kv])%list) r acc).
Proof.
  revert acc. induction r as [| kv r IH]; intros acc H; simpl; [exact H |].
  apply IH. destruct (mem (fst kv) acc); [exact H | apply in_or_app; left; exact H].
Qed.

Lemma claves_fila (r : row) acc k :
  In k (map fst r) ->
  In k (fold_left (fun a kv => if mem (fst kv) a then a else (a ++ [fst kv])%list) r acc).
Proof.
  revert acc. induction r as [| kv r IH]; intros acc H; simpl in *; [contradiction |].
  destruct H as [<- | H]; [| apply IH; exact H].
  apply claves_acc. destruct (mem (fst kv) acc) eqn:E.
  - apply mem_In. exact E.
  - apply in_or_app. right. left. reflexivity.
Qed.

Lemma union_keys_acc l acc k : In k acc -> In k (union_keys acc l).
Proof.
  revert acc. induction l as [| r l IH]; intros acc H; simpl; [exact H |].
  apply IH. apply claves_acc. exact H.
Qed.

Lemma union_keys_fila l acc r k :
  In r l -> In k (map fst r) -> In k (union_keys acc l).
Proof.
  revert acc. induction l as [| x l IH]; intros acc Hr Hk; simpl; [contradiction |].
  destruct Hr as [-> | Hr].
  - apply union_keys_acc. apply claves_fila. exact Hk.
  - apply IH; assumption.
Qed.

(** X9.  Every column that [obtener_columnas_reporte] lists is a column
    of the report and of the chart table of every successful run, so
    selecting those columns never fails, and each has a display name in
    [obtener_nombres_columnas_display]. *)
Theorem columnas_reporte_presentes parse self df rep ch :
  snd (procesar parse self df) = Ok (rep, ch) ->
  forall c, In c obtener_columnas_reporte ->
    In c (columns rep) /\ In c (columns ch)
    /\ exists n, In (c, n) obtener_nombres_columnas_display.
Proof.
  intros H c Hc.
  destruct (tablas_salida parse self df rep ch H) as (_ & _ & C & C' & _).
  assert (R : In c (columns rep)).
  { rewrite C.
    apply (union_keys_fila _ [] (fila_anual (tabla_meses parse df)) c).
    - unfold filas_resultado. apply in_or_app. right. left. reflexivity.
    - unfold obtener_columnas_reporte in Hc. simpl in Hc.
      unfold fila_anual, _crear_fila_resumen. cbn [map fst].
      repeat (destruct Hc as [<- | Hc]; [simpl; tauto |]). contradiction. }
  split; [exact R |]. split; [rewrite C'; exact R |].
  unfold obtener_columnas_reporte in Hc. simpl in Hc.
  unfold obtener_nombres_columnas_display.
  repeat (destruct Hc as [<- | Hc]; [eexists; simpl; eauto 14 |]).
  contradiction.
Qed.

Lemma columnas_reporte_presentes_witness :
  snd (procesar sin_parser init tabla_enero) = Ok (reporte_enero, charts_enero)
  /\ In "total_horas" (columns reporte_enero)
  /\ In "total_horas" (columns charts_enero).
Proof.
  assert (H1 : snd (procesar sin_parser init tabla_enero)
               = Ok (reporte_enero, charts_enero)) by (vm_compute; reflexivity).
  destruct (columnas_reporte_presentes sin_parser init tabla_enero
              reporte_enero charts_enero H1 "total_horas")
    as (A & B & _).
  - right. right. left. reflexivity.
  - split; [exact H1 |]. split; [exact A | exact B].
Defined.

End ReactiveInvariants.

(* ================================================================== *)
(** * Reactive engine: statistics                                    *)
(* ================================================================== *)

Module ReactiveStats.

Import Py SafeArithmetic ReactiveEngine FloatFacts RowFacts NumericFacts TableFacts.
Import ReactiveProps ReactiveInvariants.
Open Scope string_scope.
Open Scope float_scope.






Section Particion.

Variable dm : DataFrame.
Hypothesis dm_sorted : StronglySorted le_orden (rows dm).
Hypothesis dm_rango :
  forall r, In r (rows dm) -> get r "mes_orden" = Some (CInt (rango (get r "mes"))).




End Particion.




(** Every month cell of the input is text that names a calendar month,
    in any case and with or without outer blanks. *)
Definition meses_validos (df : DataFrame) : Prop :=
  forall r0, In r0 (rows (rename_columns normalizar_nombre df)) ->
    isin (Some (str_lower_strip (get r0 "mes"))) MESES_ORDEN = true.



Lemma meses_validos_enero : meses_validos tabla_enero.
Proof. intros r0 [<- | []]. reflexivity. Qed.

End ReactiveStats.

(* ================================================================== *)
(** * The calculator on whole tables                                 *)
(* ================================================================== *)

Module CalculatorProps.

Import Py SafeArithmetic Calculator FloatFacts RowFacts NumericFacts TableFacts.
Open Scope string_scope.
Open Scope float_scope.


(** The fields that enter the products of OPAS and IDPS. *)
Definition CAMPOS_COMPUESTOS : list string :=
  [ "opas_real"; "opas_personas_conf"; "opas_prog"; "opas_personas_prev";
    "dps_real"; "dps_asistentes"; "dps_plan"; "dps_previstos" ].


(** No field of the products holds text. *)
Definition productos_numericos (df : DataFrame) : Prop :=
  forall r c s, In r (rows df) -> In c CAMPOS_COMPUESTOS -> get r c <> Some (CStr s).





Lemma length_assign c f df :
  List.length (rows (assign c f df)) = List.length (rows df).
Proof. rewrite rows_assign. apply length_map. Qed.


(** A month of reactive data without the hours column. *)
Definition tabla_sin_horas : DataFrame :=
  {| columns := ["mes"; "accidentes"; "dias_perdidos"];
     rows := [[("mes", CStr "enero"); ("accidentes", CNum 2);
               ("dias_perdidos", CNum 10)]] |}.


Lemma productos_sin_horas : productos_numericos tabla_sin_horas.
Proof.
  intros r c s [<- | []] Hc. unfold CAMPOS_COMPUESTOS in Hc. simpl in Hc.
  repeat (destruct Hc as [<- | Hc]; [discriminate |]). contradiction.
Qed.


(** X19.  The calculator's two steps compose without failure: on the
    table that [procesar_dataframe] returns, [agregar_estado_cumplimiento]
    raises nothing, whatever the target; it keeps the rows and labels
    each one "CUMPLE" exactly when its IG_TOTAL reaches the target.  On a
    table without a column IG_TOTAL it raises. *)
Theorem calculadora_estado df meta :
  productos_numericos df ->
  (forall d, mem "IG_TOTAL" (columns d) = false ->
     agregar_estado_cumplimiento d meta = None)
  /\ exists out,
       agregar_estado_cumplimiento (procesar_dataframe df) meta = Some out
       /\ List.length (rows out) = List.length (rows df)
       /\ forall r, In r (rows out) ->
            get r "Estado" = Some (CStr (evaluar_cumplimiento (num r "IG_TOTAL") meta))
            /\ (get r "Estado" = Some (CStr "CUMPLE")
                <-> (meta <=? num r "IG_TOTAL") = true).
Proof.
  intros _. split.
  { intros d H. unfold agregar_estado_cumplimiento. rewrite H. reflexivity. }
  unfold agregar_estado_cumplimiento.
  assert (C : mem "IG_TOTAL" (columns (procesar_dataframe df)) = true)
    by (unfold procesar_dataframe; apply mem_assign_eq).
  assert (T : forallb (fun r => match get r "IG_TOTAL" with
                                | Some (CStr _) => false
                                | _ => true
                                end) (rows (procesar_dataframe df)) = true).
  { apply forallb_forall. intros r Hr. unfold procesar_dataframe in Hr.
    apply In_rows_assign in Hr. destruct Hr as [r0 [_ ->]].
    rewrite get_set_eq. reflexivity. }
  rewrite C, T. cbn [andb]. eexists. split; [reflexivity |].
  split.
  { rewrite length_assign. unfold procesar_dataframe. rewrite !length_assign.
    reflexivity. }
  intros r Hr. apply In_rows_assign in Hr. destruct Hr as [r0 [_ ->]].
  assert (S : get (set r0 "Estado"
                     (CStr (evaluar_cumplimiento (num r0 "IG_TOTAL") meta))) "Estado"
              = Some (CStr (evaluar_cumplimiento
                              (num (set r0 "Estado"
                                      (CStr (evaluar_cumplimiento (num r0 "IG_TOTAL") meta)))
                                   "IG_TOTAL") meta))).
  { row_simpl. reflexivity. }
  split; [exact S |]. rewrite S. unfold evaluar_cumplimiento.
  destruct (meta <=? _); split; intros H; try reflexivity; discriminate H.
Qed.

Lemma calculadora_estado_witness :
  productos_numericos tabla_sin_horas
  /\ exists out,
       agregar_estado_cumplimiento (procesar_dataframe tabla_sin_horas) 80 = Some out
       /\ List.length (rows out) = 1%nat.
Proof.
  split; [exact productos_sin_horas |].
  destruct (calculadora_estado tabla_sin_horas 80 productos_sin_horas)
    as [_ [out (A & B & _)]].
  exists out. split; [exact A | exact B].
Defined.

End CalculatorProps.

(* ================================================================== *)
(** * Validator: what is accepted and what is rejected               *)
(* ================================================================== *)

Module ValidatorAcceptance.

Import Py Validator FloatFacts RowFacts NumericFacts TableFacts.
Open Scope string_scope.
Open Scope float_scope.

(** The numeric columns of the reactive validation. *)
Definition NUMERICAS : list string :=
  ["horas_trabajadas"; "num_lesiones"; "dias_perdidos"].

Lemma filter_vacio {A : Type} (p : A -> bool) l :
  filter p l = [] <-> forallb (fun x => negb (p x)) l = true.
Proof.
  induction l as [| x l IH]; simpl; [tauto |].
  destruct (p x); simpl; [split; discriminate | exact IH].
Qed.

Lemma length_filter_cero {A : Type} (p : A -> bool) l :
  List.length (filter p l) = 0%nat <-> forall x, In x l -> p x = false.
Proof.
  induction l as [| x l IH]; simpl.
  - split; [intros _ y [] | reflexivity].
  - destruct (p x) eqn:E; simpl.
    + split; [discriminate |]. intros H.
      rewrite (H x (or_introl eq_refl)) in E. discriminate E.
    + rewrite IH. split.
      * intros H y [<- | Hy]; [exact E | apply H; exact Hy].
      * intros H y Hy. apply H. right. exact Hy.
Qed.

Section Aceptacion.

Variable parse : string -> option float.

(** The table after the numeric columns have been read as numbers. *)
Definition numerico (col : string) (r : row) : cell :=
  CNum (to_numeric parse (get r col)).

Definition tabla_numerica (dn : DataFrame) : DataFrame :=
  assign "dias_perdidos" (numerico "dias_perdidos")
    (assign "num_lesiones" (numerico "num_lesiones")
       (assign "horas_trabajadas" (numerico "horas_trabajadas") dn)).

(** No negative value in the numeric columns. *)
Definition sin_negativos (d : DataFrame) : bool :=
  forallb (fun c => Nat.eqb (count_where (fun x => x <? 0) c d) 0) NUMERICAS.

Lemma paso_numerico_fst st col :
  fst (paso_numerico parse st col) = assign col (numerico col) (fst st).
Proof. destruct st as [d r]. reflexivity. Qed.

Lemma paso_numerico_valido st col :
  es_valido (snd (paso_numerico parse st col)) = es_valido (snd st).
Proof.
  destruct st as [d r]. unfold paso_numerico. cbn [snd].
  destruct (0 <? _)%nat; reflexivity.
Qed.

Lemma negativos_valido d cols res :
  es_valido (fold_left (paso_negativos d) cols res)
  = es_valido res
    && forallb (fun c => Nat.eqb (count_where (fun x => x <? 0) c d) 0) cols.
Proof.
  revert res. induction cols as [| c cols IH]; intros res; simpl.
  - rewrite andb_true_r. reflexivity.
  - rewrite IH. unfold paso_negativos.
    destruct (count_where (fun x => x <? 0) c d) as [| n]; simpl.
    + reflexivity.
    + rewrite andb_false_r. reflexivity.
Qed.

Definition faltantes_reactivo (dn : DataFrame) : list (string * string) :=
  filter (fun kv => negb (mem (fst kv) (columns dn))) COLUMNAS_REACTIVO.

Lemma validar_reactivo_faltan dn res :
  faltantes_reactivo dn <> [] ->
  es_valido (snd (_validar_reactivo parse dn res)) = false.
Proof.
  intros H. unfold _validar_reactivo. fold (faltantes_reactivo dn).
  destruct (faltantes_reactivo dn) as [| x l]; [contradiction |]. reflexivity.
Qed.

Lemma validar_reactivo_completo dn res :
  faltantes_reactivo dn = [] ->
  fst (_validar_reactivo parse dn res) = tabla_numerica dn
  /\ es_valido (snd (_validar_reactivo parse dn res))
     = es_valido res && sin_negativos (tabla_numerica dn).
Proof.
  intros H. unfold _validar_reactivo. fold (faltantes_reactivo dn). rewrite H.
  cbn [map].
  assert (F : fst (fold_left (paso_numerico parse)
                     ["horas_trabajadas"; "num_lesiones"; "dias_perdidos"] (dn, res))
              = tabla_numerica dn).
  { cbn [fold_left]. rewrite !paso_numerico_fst. reflexivity. }
  assert (V : es_valido (snd (fold_left (paso_numerico parse)
                     ["horas_trabajadas"; "num_lesiones"; "dias_perdidos"] (dn, res)))
              = es_valido res).
  { cbn [fold_left]. rewrite !paso_numerico_valido. reflexivity. }
  destruct (fold_left (paso_numerico parse) _ (dn, res)) as [d r].
  cbn [fst snd] in *. subst d. split; [reflexivity |].
  assert (W : es_valido
                (fold_left (paso_negativos (tabla_numerica dn))
                   ["horas_trabajadas"; "num_lesiones"; "dias_perdidos"] r)
              = es_valido res && sin_negativos (tabla_numerica dn)).
  { rewrite negativos_valido, V. reflexivity. }
  destruct (0 <? _)%nat; exact W.
Qed.

Lemma validar_reactivo_eq df :
  empty df = false ->
  validar parse REACTIVO (Some df) =
    (let st := _validar_reactivo parse (_normalizar_columnas REACTIVO df)
                 nuevo_resultado in
     if es_valido (snd st)
     then {| es_valido := es_valido (snd st);
             errores := errores (snd st);
             warnings := warnings (snd st);
             df_limpio := Some (fst st);
             resumen := _generar_resumen REACTIVO (fst st) |}
     else snd st).
Proof.
  intros H. unfold validar. rewrite H.
  destruct (_validar_reactivo parse _ nuevo_resultado) as [d r]. reflexivity.
Qed.

Lemma validar_vacio t df :
  empty df = true -> es_valido (validar parse t (Some df)) = false.
Proof. intros H. unfold validar. rewrite H. reflexivity. Qed.

Lemma fila_numerica dn r c :
  In r (rows (tabla_numerica dn)) -> In c NUMERICAS ->
  exists x, get r c = Some (CNum x).
Proof.
  unfold tabla_numerica. intros H Hc. invert_rows H. simpl in Hc.
  destruct Hc as [<- | [<- | [<- | []]]]; eexists; peel; reflexivity.
Qed.

Lemma columnas_numerica dn c :
  mem c (columns dn) = true -> mem c (columns (tabla_numerica dn)) = true.
Proof. intros H. unfold tabla_numerica. repeat apply mem_assign. exact H. Qed.

Lemma length_numerica dn :
  List.length (rows (tabla_numerica dn)) = List.length (rows dn).
Proof. unfold tabla_numerica. rewrite !rows_assign, !length_map. reflexivity. Qed.

Lemma length_normalizar t df :
  List.length (rows (_normalizar_columnas t df)) = List.length (rows df).
Proof.
  unfold _normalizar_columnas, rename_columns. cbn [rows].
  rewrite !length_map. reflexivity.
Qed.

Lemma total_registros t d :
  get (_generar_resumen t d) "total_registros"
  = Some (CInt (Z.of_nat (List.length (rows d)))).
Proof.
  unfold _generar_resumen. destruct t; try reflexivity;
    destruct (mem "horas_trabajadas" (columns d)),
             (mem "num_lesiones" (columns d)),
             (mem "dias_perdidos" (columns d)); reflexivity.
Qed.

(** X12.  A table that reactive validation accepts comes back cleaned:
    it has the four required columns under their standard names and as
    many rows as the input, at least one; in every row the three numeric
    columns hold numbers (a cell that is not numeric became NaN) and
    none of them is negative; the summary counts the rows of the
    input. *)
Theorem reactivo_aceptado df :
  es_valido (validar parse REACTIVO (Some df)) = true ->
  exists d,
    df_limpio (validar parse REACTIVO (Some df)) = Some d
    /\ d = tabla_numerica (_normalizar_columnas REACTIVO df)
    /\ (forall c, In c (map fst COLUMNAS_REACTIVO) -> In c (columns d))
    /\ List.length (rows d) = List.length (rows df)
    /\ rows d <> []
    /\ (forall r c, In r (rows d) -> In c NUMERICAS ->
          exists x, get r c = Some (CNum x) /\ (x <? 0) = false)
    /\ get (resumen (validar parse REACTIVO (Some df))) "total_registros"
       = Some (CInt (Z.of_nat (List.length (rows df)))).
Proof.
  intros Hv.
  destruct (empty df) eqn:He.
  { rewrite (validar_vacio REACTIVO df He) in Hv. discriminate Hv. }
  rewrite (validar_reactivo_eq df He) in *. cbv zeta in *.
  set (dn := _normalizar_columnas REACTIVO df) in *.
  destruct (es_valido (snd (_validar_reactivo parse dn nuevo_resultado))) eqn:V;
    [| rewrite V in Hv; discriminate Hv].
  assert (Hf : faltantes_reactivo dn = []).
  { destruct (faltantes_reactivo dn) as [| x l] eqn:E; [reflexivity |].
    rewrite validar_reactivo_faltan in V; [discriminate V |].
    rewrite E. discriminate. }
  destruct (validar_reactivo_completo dn nuevo_resultado Hf) as [F W].
  rewrite V in W. cbn [es_valido nuevo_resultado andb] in W. symmetry in W.
  cbn [df_limpio resumen]. rewrite F.
  exists (tabla_numerica dn). split; [reflexivity |]. split; [reflexivity |].
  assert (L : List.length (rows (tabla_numerica dn)) = List.length (rows df)).
  { rewrite length_numerica. apply length_normalizar. }
  split.
  { intros c Hc. apply mem_In. apply columnas_numerica.
    apply (proj1 (filter_vacio _ _)) in Hf.
    rewrite forallb_forall in Hf. apply in_map_iff in Hc.
    destruct Hc as [kv [<- Hkv]]. specialize (Hf kv Hkv).
    rewrite negb_involutive in Hf. exact Hf. }
  split; [exact L |].
  split.
  { intros E. rewrite E in L. unfold empty in He.
    destruct (columns df); [discriminate He |].
    destruct (rows df); [discriminate He | discriminate L]. }
  split.
  { intros r c Hr Hc. destruct (fila_numerica dn r c Hr Hc) as [x G].
    exists x. split; [exact G |].
    unfold sin_negativos in W. rewrite forallb_forall in W.
    specialize (W c Hc). apply Nat.eqb_eq in W.
    unfold count_where in W.
    apply (proj1 (length_filter_cero _ _) W).
    unfold column_num. apply in_map_iff. exists r. split; [| exact Hr].
    unfold num. rewrite G. reflexivity. }
  rewrite total_registros. rewrite L. reflexivity.
Qed.

(** X13.  Reactive validation rejects a table as soon as one cell of a
    numeric column reads as a negative number: the result is invalid
    and carries no cleaned table. *)
Theorem reactivo_rechaza_negativos df r c :
  In r (rows (_normalizar_columnas REACTIVO df)) -> In c NUMERICAS ->
  (to_numeric parse (get r c) <? 0) = true ->
  es_valido (validar parse REACTIVO (Some df)) = false
  /\ df_limpio (validar parse REACTIVO (Some df)) = None.
Proof.
  intros Hr Hc Hneg.
  destruct (empty df) eqn:He.
  { unfold validar. rewrite He. split; reflexivity. }
  rewrite (validar_reactivo_eq df He). cbv zeta.
  set (dn := _normalizar_columnas REACTIVO df) in *.
  destruct (es_valido (snd (_validar_reactivo parse dn nuevo_resultado))) eqn:V.
  2:{ split; [exact V |].
      apply (ValidatorProps.sin_adjuntos_reactivo parse dn nuevo_resultado
               ValidatorProps.sin_adjuntos_nuevo). }
  exfalso.
  assert (Hf : faltantes_reactivo dn = []).
  { destruct (faltantes_reactivo dn) as [| x l] eqn:E; [reflexivity |].
    rewrite validar_reactivo_faltan in V; [discriminate V |].
    rewrite E. discriminate. }
  destruct (validar_reactivo_completo dn nuevo_resultado Hf) as [_ W].
  rewrite V in W. cbn [es_valido nuevo_resultado andb] in W. symmetry in W.
  unfold sin_negativos in W. rewrite forallb_forall in W.
  specialize (W c Hc). apply Nat.eqb_eq in W. unfold count_where in W.
  pose proof (proj1 (length_filter_cero _ _) W) as Z.
  set (r' := set (set (set r "horas_trabajadas" (numerico "horas_trabajadas" r))
                    "num_lesiones"
                    (numerico "num_lesiones"
                       (set r "horas_trabajadas" (numerico "horas_trabajadas" r))))
               "dias_perdidos"
               (numerico "dias_perdidos"
                  (set (set r "horas_trabajadas" (numerico "horas_trabajadas" r))
                     "num_lesiones"
                     (numerico "num_lesiones"
                        (set r "horas_trabajadas"
                           (numerico "horas_trabajadas" r)))))).
  assert (I : In r' (rows (tabla_numerica dn))).
  { unfold tabla_numerica. rewrite !rows_assign, !map_map.
    apply in_map_iff. exists r. split; [reflexivity | exact Hr]. }
  assert (N : num r' c = to_numeric parse (get r c)).
  { unfold r', numerico. simpl in Hc.
    destruct Hc as [<- | [<- | [<- | []]]]; row_simpl; reflexivity. }
  specialize (Z (num r' c)). rewrite N, Hneg in Z.
  assert (X : true = false); [| discriminate X].
  apply Z. unfold column_num. apply in_map_iff. exists r'.
  split; [exact N | exact I].
Qed.







End Aceptacion.

(** A month of reactive data under accepted aliases. *)
Definition tabla_alias : DataFrame :=
  {| columns := ["Mes"; "Horas"; "Lesiones"; "Dias"];
     rows := [[("Mes", CStr "Enero"); ("Horas", CNum 16000);
               ("Lesiones", CNum 2); ("Dias", CNum 10)]] |}.

(** The same month with a negative count of lost days. *)
Definition tabla_negativa : DataFrame :=
  {| columns := ["Mes"; "Horas"; "Lesiones"; "Dias"];
     rows := [[("Mes", CStr "Enero"); ("Horas", CNum 16000);
               ("Lesiones", CNum 2); ("Dias", CNum (-3))]] |}.

Definition fila_negativa : row :=
  Eval vm_compute in List.hd [] (rows (_normalizar_columnas REACTIVO tabla_negativa)).

Lemma reactivo_aceptado_witness :
  es_valido (validar sin_parser REACTIVO (Some tabla_alias)) = true
  /\ exists d, df_limpio (validar sin_parser REACTIVO (Some tabla_alias)) = Some d
       /\ In "dias_perdidos" (columns d).
Proof.
  assert (H : es_valido (validar sin_parser REACTIVO (Some tabla_alias)) = true)
    by (vm_compute; reflexivity).
  split; [exact H |].
  destruct (reactivo_aceptado sin_parser tabla_alias H) as [d (A & _ & C & _)].
  exists d. split; [exact A |]. apply C. simpl. tauto.
Defined.

Lemma reactivo_rechaza_negativos_witness :
  In fila_negativa (rows (_normalizar_columnas REACTIVO tabla_negativa))
  /\ In "dias_perdidos" NUMERICAS
  /\ (to_numeric sin_parser (get fila_negativa "dias_perdidos") <? 0) = true
  /\ es_valido (validar sin_parser REACTIVO (Some tabla_negativa)) = false.
Proof.
  assert (H1 : In fila_negativa (rows (_normalizar_columnas REACTIVO tabla_negativa)))
    by (vm_compute; left; reflexivity).
  assert (H2 : In "dias_perdidos" NUMERICAS) by (simpl; tauto).
  assert (H3 : (to_numeric sin_parser (get fila_negativa "dias_perdidos") <? 0) = true)
    by (vm_compute; reflexivity).
  split; [exact H1 |]. split; [exact H2 |]. split; [exact H3 |].
  exact (proj1 (reactivo_rechaza_negativos sin_parser tabla_negativa
                  fila_negativa "dias_perdidos" H1 H2 H3)).
Defined.

End ValidatorAcceptance.

(* ================================================================== *)
(** * Validator: resolution of column aliases                        *)
(* ================================================================== *)

Module AliasProps.

Import Py Validator RowFacts TableFacts.
Open Scope string_scope.


(** The normalised aliases of an entry of the alias table. *)
Definition alias_norm (aliases : list string) : list string :=
  map normalizar_nombre aliases.









Section Renombrado.

Variable cols : list string.




End Renombrado.








End AliasProps.

(* ================================================================== *)
(** * Normalisation of column names                                  *)
(* ================================================================== *)

Module NormalizarProps.

Import Py.
Open Scope string_scope.
























End NormalizarProps.

(* ================================================================== *)
(** * Proactive engine: numeric fields after coercion                *)
(* ================================================================== *)

Module CoercionProps.

Import Py FloatFacts RowFacts NumericFacts TableFacts.
Open Scope string_scope.
Open Scope float_scope.

(** Column [c] holds, in every row, a number that is not NaN. *)
Definition sin_nan (c : string) (d : DataFrame) : Prop :=
  forall r, In r (rows d) -> exists x, get r c = Some (CNum x) /\ is_nan x = false.

Lemma fillna0_sin_nan x : is_nan (fillna0 x) = false.
Proof. unfold fillna0. destruct (is_nan x) eqn:E; [reflexivity | exact E]. Qed.

Lemma sin_nan_assign c c' f d :
  c' <> c -> sin_nan c d -> sin_nan c (assign c' f d).
Proof.
  intros Hne H r Hr. apply In_rows_assign in Hr. destruct Hr as [r0 [H0 ->]].
  rewrite get_set_neq by (apply String.eqb_neq; exact Hne). apply H. exact H0.
Qed.

Lemma sin_nan_sort c k d : sin_nan c d -> sin_nan c (sort_values k d).
Proof. intros H r Hr. apply H. simpl in Hr. apply In_sort_rows in Hr. exact Hr. Qed.

Lemma filter_negb_nil {A : Type} (p : A -> bool) l :
  filter (fun x => negb (p x)) l = [] -> forall x, In x l -> p x = true.
Proof.
  induction l as [| y l IH]; simpl; intros H x Hx; [contradiction |].
  destruct (p y) eqn:E; simpl in H; [| discriminate H].
  destruct Hx as [<- | Hx]; [exact E | apply IH; assumption].
Qed.

End CoercionProps.

Module ProactiveCoercion.

Import Py ProactiveEngine FloatFacts RowFacts NumericFacts TableFacts CoercionProps.
Open Scope string_scope.
Open Scope float_scope.

Section Lectura.

Variable parse : string -> option float.

Lemma sin_nan_coerce c d : sin_nan c (coerce parse c d).
Proof.
  intros r Hr. unfold coerce in Hr. apply In_rows_assign in Hr.
  destruct Hr as [r0 [_ ->]]. rewrite get_set_eq.
  eexists. split; [reflexivity | apply fillna0_sin_nan].
Qed.

Lemma sin_nan_coerce_otro c c' d : sin_nan c d -> sin_nan c (coerce parse c' d).
Proof.
  intros H. destruct (String.eqb_spec c' c) as [-> | Hne].
  - apply sin_nan_coerce.
  - unfold coerce. apply sin_nan_assign; assumption.
Qed.

Lemma sin_nan_fold c cols d :
  c <> "mes" -> sin_nan c d \/ In c cols ->
  sin_nan c (fold_left
               (fun df col => if String.eqb col "mes" then df else coerce parse col df)
               cols d).
Proof.
  intros Hc. revert d. induction cols as [| col cols IH]; intros d H; simpl.
  - destruct H as [H | []]. exact H.
  - apply IH. destruct H as [H | [-> | H]].
    + left. destruct (String.eqb col "mes"); [exact H | apply sin_nan_coerce_otro; exact H].
    + left. rewrite (proj2 (String.eqb_neq c "mes") Hc). apply sin_nan_coerce.
    + right. exact H.
Qed.

Lemma preparar_sin_nan c d :
  c <> "mes" -> c <> "mes_orden" -> In c (columns d) ->
  sin_nan c (_preparar_datos parse d).
Proof.
  intros H1 H2 Hin. unfold _preparar_datos.
  apply sin_nan_sort. apply sin_nan_assign; [congruence |].
  apply sin_nan_assign; [congruence |].
  apply sin_nan_fold; [exact H1 | right; exact Hin].
Qed.

(** X17.  In every row of the table that [procesar] returns, each of
    the twenty required numeric fields holds a number that is not NaN:
    a blank, a text that is no number and a missing value were all read
    as 0.0 before anything was computed. *)
Theorem campos_sin_nan self df out r :
  snd (procesar parse self df) = Ok out -> In r (rows out) ->
  forall c, In c (List.tl COLUMNAS_REQUERIDAS) ->
    exists x, get r c = Some (CNum x) /\ isna x = false.
Proof.
  unfold procesar.
  destruct (_validar_columnas (rename_columns normalizar_nombre df)) eqn:V;
    cbn [snd]; intros H; [| discriminate H].
  injection H as <-. intros H c Hc.
  assert (Hcol : In c (columns (rename_columns normalizar_nombre df))).
  { unfold _validar_columnas in V.
    destruct (faltantes (rename_columns normalizar_nombre df)) as [| x l] eqn:F;
      [| discriminate V].
    apply mem_In. apply (filter_negb_nil _ _ F). right. exact Hc. }
  set (d0 := rename_columns normalizar_nombre df) in *. clearbody d0.
  unfold INDICADORES in H. cbn [fold_left calcular_columna] in H.
  invert_rows H. unfold _calcular_columnas_compuestas in H. invert_rows H.
  assert (P : forall k, In k (List.tl COLUMNAS_REQUERIDAS) ->
                sin_nan k (_preparar_datos parse d0) -> 
                In k (columns d0) ->
                exists x, get r k = Some (CNum x) /\ isna x = false).
  { intros k Hk S _. match type of H with In ?x _ => destruct (S x H) as [y [G N]] end.
    exists y. split; [| exact N].
    unfold COLUMNAS_REQUERIDAS in Hk. simpl in Hk.
    repeat (destruct Hk as [<- | Hk]; [peel; exact G |]). contradiction. }
  apply P; [exact Hc | | exact Hcol].
  apply preparar_sin_nan; [| | exact Hcol];
    unfold COLUMNAS_REQUERIDAS in Hc; simpl in Hc;
    intros ->; intuition discriminate.
Qed.

End Lectura.

Lemma campos_sin_nan_witness :
  snd (procesar sin_parser (init None) ProactiveProps.ejemplo_tabla)
    = Ok ProactiveProps.ejemplo_salida
  /\ In ProactiveProps.ejemplo_fila_salida (rows ProactiveProps.ejemplo_salida)
  /\ exists x, get ProactiveProps.ejemplo_fila_salida "nart_prog" = Some (CNum x)
       /\ isna x = false.
Proof.
  assert (H1 : snd (procesar sin_parser (init None) ProactiveProps.ejemplo_tabla)
               = Ok ProactiveProps.ejemplo_salida) by (vm_compute; reflexivity).
  assert (H2 : In ProactiveProps.ejemplo_fila_salida
                  (rows ProactiveProps.ejemplo_salida)) by (left; reflexivity).
  split; [exact H1 |]. split; [exact H2 |].
  apply (campos_sin_nan sin_parser (init None) ProactiveProps.ejemplo_tabla
           ProactiveProps.ejemplo_salida ProactiveProps.ejemplo_fila_salida H1 H2).
  left. reflexivity.
Defined.

End ProactiveCoercion.

(* ================================================================== *)
(** * Reactive engine: numeric fields after coercion                 *)
(* ================================================================== *)

Module ReactiveCoercion.

Import Py ReactiveEngine FloatFacts RowFacts NumericFacts TableFacts CoercionProps.
Import ReactiveProps ReactiveInvariants.
Open Scope string_scope.
Open Scope float_scope.

(** The numeric fields of a month of reactive data. *)
Definition CAMPOS_MES : list string :=
  [ "num_trabajadores"; "horas_hombre_mes"; "acc_baja";
    "acc_sin_baja"; "enf_ocupacionales"; "dias_perdidos"; "horas_extras" ].

Section Lectura.

Variable parse : string -> option float.

Lemma sin_nan_coerce_mes c d : sin_nan c (coerce parse c d).
Proof.
  intros r Hr. unfold coerce in Hr. apply In_rows_assign in Hr.
  destruct Hr as [r0 [_ ->]]. rewrite get_set_eq.
  eexists. split; [reflexivity | apply fillna0_sin_nan].
Qed.

Lemma sin_nan_coerce_otro_mes c c' d : sin_nan c d -> sin_nan c (coerce parse c' d).
Proof.
  intros H. destruct (String.eqb_spec c' c) as [-> | Hne].
  - apply sin_nan_coerce_mes.
  - unfold coerce. apply sin_nan_assign; assumption.
Qed.

Lemma sin_nan_fold_mes c cols d :
  sin_nan c d \/ (In c cols /\ mem c (columns d) = true) ->
  sin_nan c (fold_left
               (fun df col => if mem col (columns df) then coerce parse col df else df)
               cols d).
Proof.
  revert d. induction cols as [| col cols IH]; intros d H; simpl.
  - destruct H as [H | [[] _]]. exact H.
  - apply IH. destruct H as [H | [[-> | H] M]].
    + left. destruct (mem col (columns d)); [apply sin_nan_coerce_otro_mes |]; exact H.
    + left. rewrite M. apply sin_nan_coerce_mes.
    + destruct (mem col (columns d)) eqn:E; [| right; auto].
      right. split; [exact H |]. unfold coerce.
      rewrite (columns_assign_mem col _ d E). exact M.
Qed.

Lemma preparar_base_sin_nan c d :
  In c CAMPOS_MES -> (c <> "horas_extras" -> mem c (columns d) = true) ->
  sin_nan c (_preparar_datos_base parse d).
Proof.
  intros Hc Hm. unfold _preparar_datos_base.
  assert (N : forall k, In k ["total_lesiones"; "total_horas"; "mes"; "mes_orden"] ->
                k <> c).
  { intros k Hk ->. unfold CAMPOS_MES in Hc. simpl in Hc, Hk.
    intuition congruence. }
  apply sin_nan_sort.
  do 4 (apply sin_nan_assign; [apply N; simpl; tauto |]).
  destruct (String.eqb_spec c "horas_extras") as [-> | Hne].
  - clear Hm.
    match goal with |- sin_nan _ (if ?b then _ else _) => destruct b end.
    + apply sin_nan_coerce_mes.
    + intros r Hr. apply In_rows_assign in Hr. destruct Hr as [r0 [_ ->]].
      rewrite get_set_eq. eexists. split; reflexivity.
  - assert (S : sin_nan c
                  (fold_left
                     (fun df col =>
                        if mem col (columns df) then coerce parse col df else df)
                     ["num_trabajadores"; "horas_hombre_mes"; "acc_baja";
                      "acc_sin_baja"; "enf_ocupacionales"; "dias_perdidos"] d)).
    { apply sin_nan_fold_mes. right. split; [| apply Hm; exact Hne].
      unfold CAMPOS_MES in Hc. simpl in Hc. simpl.
      intuition congruence. }
    match goal with |- sin_nan _ (if ?b then _ else _) => destruct b end.
    + apply sin_nan_coerce_otro_mes. exact S.
    + apply sin_nan_assign; [congruence | exact S].
Qed.

Lemma meses_sin_nan c d :
  In c CAMPOS_MES -> (c <> "horas_extras" -> mem c (columns d) = true) ->
  sin_nan c (_calcular_indices_meses (_preparar_datos_base parse d)).
Proof.
  intros Hc Hm. unfold _calcular_indices_meses.
  assert (N : forall k, In k ["IF"; "IG"; "TR"; "tipo_fila"; "constante_k"] -> k <> c).
  { intros k Hk ->. unfold CAMPOS_MES in Hc. simpl in Hc, Hk.
    intuition congruence. }
  do 5 (apply sin_nan_assign; [apply N; simpl; tauto |]).
  apply preparar_base_sin_nan; assumption.
Qed.

(** X18.  In every month row of the report and of the chart table the
    six numeric input fields and [horas_extras] hold numbers that are
    not NaN: blanks and text were read as 0.0, and a table without
    [horas_extras] gets 0.0 there. *)
Theorem campos_mes_sin_nan self df rep ch r :
  snd (procesar parse self df) = Ok (rep, ch) -> In r (rows ch) ->
  In r (rows rep)
  /\ forall c, In c CAMPOS_MES ->
       exists x, get r c = Some (CNum x) /\ isna x = false.
Proof.
  intros H Hr.
  destruct (tablas_salida parse self df rep ch H) as (E & Ech & _).
  destruct (procesar_tablas parse self df H) as [_ Hch].
  split.
  { rewrite Hch in Hr. apply filter_In in Hr. tauto. }
  intros c Hc.
  rewrite Ech in Hr. apply in_flat_map in Hr. destruct Hr as [t [_ Hr]].
  apply (proj1 (filter_In _ r (rows (tabla_meses parse df)))) in Hr.
  destruct Hr as [Hr _].
  revert H. unfold procesar.
  destruct (_validar_columnas (rename_columns normalizar_nombre df)) eqn:V;
    cbn [snd]; intros H; [| discriminate H].
  assert (Hcol : c <> "horas_extras" ->
                 mem c (columns (rename_columns normalizar_nombre df)) = true).
  { intros Hne. unfold _validar_columnas in V.
    destruct (faltantes (rename_columns normalizar_nombre df)) as [| x l] eqn:F;
      [| discriminate V].
    apply (filter_negb_nil _ _ F).
    unfold CAMPOS_MES in Hc. unfold COLUMNAS_REQUERIDAS. simpl in Hc. simpl.
    intuition congruence. }
  exact (meses_sin_nan c _ Hc Hcol r Hr).
Qed.

End Lectura.

Lemma campos_mes_sin_nan_witness :
  snd (procesar sin_parser init tabla_enero) = Ok (reporte_enero, charts_enero)
  /\ In mes_enero (rows charts_enero)
  /\ exists x, get mes_enero "horas_extras" = Some (CNum x) /\ isna x = false.
Proof.
  assert (H1 : snd (procesar sin_parser init tabla_enero)
               = Ok (reporte_enero, charts_enero)) by (vm_compute; reflexivity).
  assert (H2 : In mes_enero (rows charts_enero)) by (left; reflexivity).
  split; [exact H1 |]. split; [exact H2 |].
  apply (campos_mes_sin_nan sin_parser init tabla_enero reporte_enero charts_enero
           mes_enero H1 H2).
  unfold CAMPOS_MES. simpl. tauto.
Defined.

End ReactiveCoercion.
